(** * covid19-api: the location-resolution and aggregation engine of [src/app.py]

    A shallow embedding of the request handlers of [src/app.py]
    ([all_country], [history_country], [history_region],
    [history_region_all], [history_region_world], ...) together with the
    Python operations they rely on: subscripting, iteration over dicts and
    lists, [str.lower], [int], and exceptions caught by [try/except].

    Strings are byte strings; a Python dict is an association list in
    insertion order; Python integers are unbounded and modelled by [Z].

    The model of [str.lower], [int] and [repr] is Python's on ASCII strings
    ([is_ascii]); statements that depend on them carry that as a hypothesis.
    Exception messages are worded as CPython 3.11 and later word them. *)

From Stdlib Require Import String Ascii List ZArith Lia Bool Permutation.
Import ListNotations.
Open Scope string_scope.

(* ================================================================== *)
(** ** Exceptions and the error monad *)

(** The exception classes the handlers can meet.  [CountryNotFound] and
    [RegionNotFound] are imported from [src.errors]; [LoadError] stands for
    whatever [util.read_json] raises (the class name is carried along). *)
Inductive exn_class : Type :=
| KeyError
| TypeError
| AttributeError
| ValueError
| CountryNotFound
| RegionNotFound
| LoadError (name : string).

Record exn : Type := mkExn { exn_cls : exn_class; exn_msg : string }.

(** [type(e).__name__] *)
Definition class_name (c : exn_class) : string :=
  match c with
  | KeyError => "KeyError"
  | TypeError => "TypeError"
  | AttributeError => "AttributeError"
  | ValueError => "ValueError"
  | CountryNotFound => "CountryNotFound"
  | RegionNotFound => "RegionNotFound"
  | LoadError name => name
  end.

Inductive result (A : Type) : Type :=
| Ok (a : A)
| Raise (e : exn).
Arguments Ok {A} a.
Arguments Raise {A} e.

Definition bind {A B : Type} (m : result A) (k : A -> result B) : result B :=
  match m with
  | Ok a => k a
  | Raise e => Raise e
  end.

Notation "x <- m ;; k" := (bind m (fun x => k))
  (at level 61, m at next level, right associativity).

Definition is_ok {A : Type} (m : result A) : bool :=
  match m with Ok _ => true | Raise _ => false end.

(* ================================================================== *)
(** ** JSON values as [json.load] produces them

    Numbers are integers: the snapshots store counts, and a JSON float has
    no place in this model. *)

#[warnings="-register-all"]
Inductive json : Type :=
| JNull
| JBool (b : bool)
| JInt (z : Z)
| JStr (s : string)
| JList (l : list json)
| JDict (d : list (string * json)).

Definition type_name (v : json) : string :=
  match v with
  | JNull => "NoneType"
  | JBool _ => "bool"
  | JInt _ => "int"
  | JStr _ => "str"
  | JList _ => "list"
  | JDict _ => "dict"
  end.

(** Lookup in a dict (association list in insertion order). *)
Fixpoint dict_get {V : Type} (d : list (string * V)) (k : string) : option V :=
  match d with
  | [] => None
  | (k', v) :: rest => if String.eqb k' k then Some v else dict_get rest k
  end.

Definition dict_keys {V : Type} (d : list (string * V)) : list string :=
  map fst d.

(** [d[k] = v]: the value of an existing key is replaced where it stands, a
    new key goes to the end. *)
Fixpoint dict_set {V : Type} (d : list (string * V)) (k : string) (v : V)
  : list (string * V) :=
  match d with
  | [] => [(k, v)]
  | (k', v') :: rest =>
      if String.eqb k' k then (k', v) :: rest else (k', v') :: dict_set rest k v
  end.

(** *** [repr] of a [str] *)

Definition squote : ascii := "'"%char.

Definition dquote : ascii := ascii_of_nat 34.

Definition backslash : ascii := ascii_of_nat 92.

Fixpoint has_char (c : ascii) (s : string) : bool :=
  match s with
  | EmptyString => false
  | String c' s' => Ascii.eqb c c' || has_char c s'
  end.

Definition hex_digit (n : nat) : ascii :=
  if (n <? 10)%nat then ascii_of_nat (48 + n) else ascii_of_nat (87 + n).

(** One character inside the quotes [q]: the quote and the backslash are
    escaped, tab, newline and carriage return get their letter, the other
    control characters their two hexadecimal digits. *)
Definition repr_char (q c : ascii) : string :=
  let n := nat_of_ascii c in
  if Ascii.eqb c q || Ascii.eqb c backslash then
    String backslash (String c EmptyString)
  else if (n =? 9)%nat then String backslash "t"
  else if (n =? 10)%nat then String backslash "n"
  else if (n =? 13)%nat then String backslash "r"
  else if (n <? 32)%nat || (n =? 127)%nat then
    String backslash
      (String "x"%char
         (String (hex_digit (n / 16)) (String (hex_digit (n mod 16)) EmptyString)))
  else String c EmptyString.

Fixpoint repr_body (q : ascii) (s : string) : string :=
  match s with
  | EmptyString => EmptyString
  | String c s' => repr_char q c ++ repr_body q s'
  end.

(** [repr(k)], which is what [str(KeyError(k))] and the message of [int]
    print: single quotes, unless the string has a single quote and no double
    quote. *)
Definition quote (k : string) : string :=
  let q := if has_char squote k && negb (has_char dquote k) then dquote
           else squote in
  String q (repr_body q k ++ String q EmptyString).

(** [v[k]] for a string subscript [k]. *)
Definition getitem (v : json) (k : string) : result json :=
  match v with
  | JDict d =>
      match dict_get d k with
      | Some x => Ok x
      | None => Raise (mkExn KeyError (quote k))
      end
  | JStr _ =>
      Raise (mkExn TypeError "string indices must be integers, not 'str'")
  | JList _ =>
      Raise (mkExn TypeError "list indices must be integers or slices, not str")
  | _ =>
      Raise (mkExn TypeError (quote (type_name v) ++ " object is not subscriptable"))
  end.

(** The [AttributeError] of [v.attr] on a value without that attribute. *)
Definition no_attribute (v : json) (attr : string) : exn :=
  mkExn AttributeError
    (quote (type_name v) ++ " object has no attribute " ++ quote attr).

(** [v.keys()] *)
Definition keys (v : json) : result (list string) :=
  match v with
  | JDict d => Ok (dict_keys d)
  | _ => Raise (no_attribute v "keys")
  end.

Fixpoint chars (s : string) : list json :=
  match s with
  | EmptyString => []
  | String c s' => JStr (String c EmptyString) :: chars s'
  end.

(** The sequence a [for x in v] loop walks through. *)
Definition iter (v : json) : result (list json) :=
  match v with
  | JList l => Ok l
  | JDict d => Ok (map JStr (dict_keys d))
  | JStr s => Ok (chars s)
  | _ => Raise (mkExn TypeError (quote (type_name v) ++ " object is not iterable"))
  end.

(* ------------------------------------------------------------------ *)
(** *** [str.lower] *)

Definition lower_ascii (c : ascii) : ascii :=
  let n := nat_of_ascii c in
  if (65 <=? n)%nat && (n <=? 90)%nat then ascii_of_nat (n + 32) else c.

Fixpoint lower (s : string) : string :=
  match s with
  | EmptyString => EmptyString
  | String c s' => String (lower_ascii c) (lower s')
  end.

(** [v.lower()] on a decoded JSON value: only a [str] has the method. *)
Definition str_lower (v : json) : result string :=
  match v with
  | JStr s => Ok (lower s)
  | _ => Raise (no_attribute v "lower")
  end.

(** [s in t] for strings. *)
Fixpoint substring_of (s t : string) : bool :=
  String.prefix s t ||
  match t with
  | EmptyString => false
  | String _ t' => substring_of s t'
  end.

(* ------------------------------------------------------------------ *)
(** *** [int(v)] *)

(** The white space [int] strips from an ASCII string: tab, line feed,
    vertical tab, form feed, carriage return and space. *)
Definition is_space (c : ascii) : bool :=
  let n := nat_of_ascii c in
  ((9 <=? n)%nat && (n <=? 13)%nat) || (n =? 32)%nat.

Definition digit_of (c : ascii) : option Z :=
  let n := nat_of_ascii c in
  if (48 <=? n)%nat && (n <=? 57)%nat then Some (Z.of_nat (n - 48)) else None.

Fixpoint lstrip (s : string) : string :=
  match s with
  | String c s' => if is_space c then lstrip s' else s
  | EmptyString => EmptyString
  end.

(** [all_space s] holds when [s] is made of white space only. *)
Fixpoint all_space (s : string) : bool :=
  match s with
  | EmptyString => true
  | String c s' => is_space c && all_space s'
  end.

(** Digits with single underscores between them, then trailing white space.
    [acc] is the value read so far; [after_digit] tells whether the previous
    character was a digit (an underscore is legal only there, and must be
    followed by a digit). *)
Fixpoint parse_digits (s : string) (acc : Z) (after_digit : bool) : option Z :=
  match s with
  | EmptyString => if after_digit then Some acc else None
  | String c s' =>
      match digit_of c with
      | Some d => parse_digits s' (10 * acc + d)%Z true
      | None =>
          if after_digit then
            if Ascii.eqb c "_"%char then
              match s' with
              | String c' _ =>
                  match digit_of c' with
                  | Some _ => parse_digits s' acc false
                  | None => None
                  end
              | EmptyString => None
              end
            else if all_space s then Some acc else None
          else None
      end
  end.

Definition parse_int (s : string) : option Z :=
  match lstrip s with
  | String "-"%char s' => option_map Z.opp (parse_digits s' 0%Z false)
  | String "+"%char s' => parse_digits s' 0%Z false
  | s' => parse_digits s' 0%Z false
  end.

(** [int(v)]: an [int] is returned as it is, a [bool] as 0 or 1, a [str] is
    parsed in base 10 (white space around, an optional sign, digits with
    single underscores between them), anything else is a [TypeError].  The
    message of the [ValueError] shows at most 200 characters of the [repr]
    of the string.  This is Python's [int] on the strings [count_plain]
    admits: ASCII, and short enough for the cap on the number of digits never
    to apply. *)
Definition py_int (v : json) : result Z :=
  match v with
  | JInt z => Ok z
  | JBool b => Ok (if b then 1%Z else 0%Z)
  | JStr s =>
      match parse_int s with
      | Some z => Ok z
      | None =>
          Raise (mkExn ValueError
                   ("invalid literal for int() with base 10: "
                      ++ String.substring 0 200 (quote s)))
      end
  | _ =>
      Raise (mkExn TypeError
               ("int() argument must be a string, a bytes-like object or a real number, not "
                  ++ quote (type_name v)))
  end.

(* ================================================================== *)
(** ** Responses *)

Record response : Type := mkResponse { status : Z; body : json }.

(** [flask.jsonify(v)]: a 200 response carrying [v].  The body is the value
    handed to [jsonify]; the order in which the serialiser writes the keys of
    an object is not part of the model. *)
Definition jsonify (v : json) : response := mkResponse 200 v.

(** Modelled from the spec: [util.response_error] of the missing
    [src/utils.py].  The body is [{"error": message}]; the status is the one
    given, 500 when the caller gives none. *)
Definition response_error (message : string) (st : Z) : response :=
  mkResponse st (JDict [("error", JStr message)]).

(** Modelled from the spec: the status [util.response_error] uses when the
    caller gives none (sections 6 and 7: 500 for unexpected kinds). *)
Definition default_status : Z := 500.

(** [f"{type(e).__name__} : {e}"] *)
Definition describe (e : exn) : string :=
  class_name (exn_cls e) ++ " : " ++ exn_msg e.

(* ================================================================== *)
(** ** The identifier matcher *)

(** Modelled from the spec: [util.pattern_match] of the missing
    [src/utils.py] (section 4.1).  The query and the three fields are folded
    to lower case; the match succeeds when the folded query equals one of the
    three folded fields, or is a non-empty substring of the folded name.
    For an empty query against an empty field the sentences of section 4.1
    disagree; this definition follows the one headed Algorithm. *)
Definition matches (query name iso2 iso3 : string) : bool :=
  let q := lower query in
  String.eqb q (lower name)
  || String.eqb q (lower iso2)
  || String.eqb q (lower iso3)
  || (negb (String.eqb q "") && substring_of q (lower name)).

(** Modelled from the spec: the call [util.pattern_match(country, n, i2, i3)]
    on decoded JSON fields.  The fields are folded with [.lower()], which
    only a [str] has, name first, then iso2, then iso3. *)
Definition pattern_match (country : string) (name iso2 iso3 : json)
  : result bool :=
  n <- str_lower name ;;
  i2 <- str_lower iso2 ;;
  i3 <- str_lower iso3 ;;
  Ok (let q := lower country in
      String.eqb q n || String.eqb q i2 || String.eqb q i3
      || (negb (String.eqb q "") && substring_of q n)).

(* ================================================================== *)
(** ** The snapshot store *)

Inductive loaded : Type :=
| Loaded (v : json)
| LoadFailed (cls msg : string).

(** The files the handlers read, by name. *)
Definition snapshot_store : Type := string -> loaded.

(** Modelled from the spec: [util.read_json] of the missing [src/utils.py]
    (section 6, [load(name) -> Snapshot]): it returns the decoded snapshot or
    fails with a loading error when the resource is absent or malformed. *)
Definition read_json (fs : snapshot_store) (name : string) : result json :=
  match fs name with
  | Loaded v => Ok v
  | LoadFailed cls msg => Raise (mkExn (LoadError cls) msg)
  end.

(* ================================================================== *)
(** ** The handlers of [src/app.py] *)

Definition is_CountryNotFound (c : exn_class) : bool :=
  match c with CountryNotFound => true | _ => false end.

Definition is_RegionNotFound (c : exn_class) : bool :=
  match c with RegionNotFound => true | _ => false end.

(** [try: ... except Exception as e: return util.response_error(...)] *)
Definition except_any (m : result response) : response :=
  match m with
  | Ok r => r
  | Raise e => response_error (describe e) default_status
  end.

(** [try: ... except C as e: return util.response_error(..., status=404)
    except Exception as e: return util.response_error(...)] *)
Definition except_404 (is_C : exn_class -> bool) (m : result response)
  : response :=
  match m with
  | Ok r => r
  | Raise e =>
      if is_C (exn_cls e) then response_error (describe e) 404
      else response_error (describe e) default_status
  end.

Definition not_found_msg : string :=
  "This region cannot be found. Please try again.".

Definition country_not_found_msg : string :=
  "This country cannot be found. Please try again.".

(** *** [all_data] *)
Definition all_data (fs : snapshot_store) : response :=
  except_any (data <- read_json fs "data.json" ;; Ok (jsonify data)).

(** *** [all_country] *)

(** The [for region in data] loop and the [raise] after it. *)
Fixpoint all_country_loop (country : string) (l : list json)
  : result response :=
  match l with
  | [] => Raise (mkExn CountryNotFound not_found_msg)
  | region :: rest =>
      name <- getitem region "country" ;;
      iso2 <- getitem region "iso2" ;;
      iso3 <- getitem region "iso3" ;;
      m <- pattern_match country name iso2 iso3 ;;
      if m then Ok (jsonify region) else all_country_loop country rest
  end.

Definition all_country_body (fs : snapshot_store) (country : string)
  : result response :=
  data <- read_json fs "data.json" ;;
  l <- iter data ;;
  all_country_loop country l.

Definition all_country (fs : snapshot_store) (country : string) : response :=
  except_404 is_CountryNotFound (all_country_body fs country).

(** *** [history] *)
Definition history_file (data_type : string) : string :=
  "csv_" ++ data_type ++ ".json".

Definition history (fs : snapshot_store) (data_type : string) : response :=
  except_any (data <- read_json fs (history_file data_type) ;; Ok (jsonify data)).

(** *** [history_country] *)

(** The [for region in list(data.keys())] loop and the [raise] after it.
    [data] is never mutated, so [data[region]] is read once per turn. *)
Fixpoint history_country_loop (country : string) (data : json)
  (ks : list string) : result response :=
  match ks with
  | [] => Raise (mkExn CountryNotFound not_found_msg)
  | region :: rest =>
      entity <- getitem data region ;;
      iso2 <- getitem entity "iso2" ;;
      iso3 <- getitem entity "iso3" ;;
      m <- pattern_match country (JStr region) iso2 iso3 ;;
      if m then Ok (jsonify entity) else history_country_loop country data rest
  end.

Definition history_country_body (fs : snapshot_store)
  (data_type country : string) : result response :=
  data <- read_json fs (history_file data_type) ;;
  ks <- keys data ;;
  history_country_loop country data ks.

Definition history_country (fs : snapshot_store) (data_type country : string)
  : response :=
  except_404 is_CountryNotFound (history_country_body fs data_type country).

(** *** Snapshot selection of the regional handlers *)

(** [country.lower() in ("us", "united states", "usa")] *)
Definition is_us (country : string) : bool :=
  let c := lower country in
  String.eqb c "us" || String.eqb c "united states" || String.eqb c "usa".

Definition region_file (data_type country : string) : string :=
  if is_us country then "csv_" ++ data_type ++ "_us_region.json"
  else "csv_" ++ data_type ++ "_region.json".

(** *** [history_region] *)

(** [region.lower() == region_name.lower()] *)
Definition region_matches (region region_name : string) : bool :=
  String.eqb (lower region) (lower region_name).

(** The inner [for region in data[inner_country]["regions"]] loop: [Some r]
    when the loop returns a response, [None] when it runs to its end. *)
Fixpoint region_loop (regions : json) (region_name : string) (rs : list json)
  : result (option response) :=
  match rs with
  | [] => Ok None
  | region :: rest =>
      match region with
      | JStr k =>
          if region_matches k region_name then
            v <- getitem regions k ;; Ok (Some (jsonify v))
          else region_loop regions region_name rest
      | _ => Raise (no_attribute region "lower")
      end
  end.

(** The outer [for inner_country in list(data.keys())] loop and the [raise]
    after it. *)
Fixpoint history_region_loop (country region_name : string) (data : json)
  (ks : list string) : result response :=
  match ks with
  | [] => Raise (mkExn RegionNotFound not_found_msg)
  | inner_country :: rest =>
      entity <- getitem data inner_country ;;
      iso2 <- getitem entity "iso2" ;;
      iso3 <- getitem entity "iso3" ;;
      m <- pattern_match country (JStr inner_country) iso2 iso3 ;;
      if m then
        regions <- getitem entity "regions" ;;
        rs <- iter regions ;;
        found <- region_loop regions region_name rs ;;
        match found with
        | Some r => Ok r
        | None => history_region_loop country region_name data rest
        end
      else history_region_loop country region_name data rest
  end.

Definition history_region_body (fs : snapshot_store)
  (data_type country region_name : string) : result response :=
  data <- read_json fs (region_file data_type country) ;;
  ks <- keys data ;;
  history_region_loop country region_name data ks.

Definition history_region (fs : snapshot_store)
  (data_type country region_name : string) : response :=
  except_404 is_RegionNotFound
    (history_region_body fs data_type country region_name).

(** *** [history_region_all] *)
Fixpoint history_region_all_loop (country : string) (data : json)
  (ks : list string) : result response :=
  match ks with
  | [] => Raise (mkExn CountryNotFound country_not_found_msg)
  | inner_country :: rest =>
      entity <- getitem data inner_country ;;
      iso2 <- getitem entity "iso2" ;;
      iso3 <- getitem entity "iso3" ;;
      m <- pattern_match country (JStr inner_country) iso2 iso3 ;;
      if m then regions <- getitem entity "regions" ;; Ok (jsonify regions)
      else history_region_all_loop country data rest
  end.

Definition history_region_all_body (fs : snapshot_store)
  (data_type country : string) : result response :=
  data <- read_json fs (region_file data_type country) ;;
  ks <- keys data ;;
  history_region_all_loop country data ks.

Definition history_region_all (fs : snapshot_store)
  (data_type country : string) : response :=
  except_404 is_CountryNotFound (history_region_all_body fs data_type country).

(** *** [history_region_world] *)

(** One turn of the inner loop on the accumulator [ret["history"]]:
    [if h not in ret["history"]: ret["history"][h] = n
     else: ret["history"][h] += n]. *)
Definition acc_step (acc : list (string * Z)) (h : string) (n : Z)
  : list (string * Z) :=
  match dict_get acc h with
  | None => dict_set acc h n
  | Some v => dict_set acc h (v + n)%Z
  end.

(** The inner [for h in data[d]["history"].keys()] loop. *)
Fixpoint history_loop (hist : json) (hs : list string) (acc : list (string * Z))
  : result (list (string * Z)) :=
  match hs with
  | [] => Ok acc
  | h :: rest =>
      v <- getitem hist h ;;
      n <- py_int v ;;
      history_loop hist rest (acc_step acc h n)
  end.

(** The outer [for d in data.keys()] loop. *)
Fixpoint world_loop (data : json) (ds : list string) (acc : list (string * Z))
  : result (list (string * Z)) :=
  match ds with
  | [] => Ok acc
  | d :: rest =>
      entity <- getitem data d ;;
      hist <- getitem entity "history" ;;
      hs <- keys hist ;;
      acc' <- history_loop hist hs acc ;;
      world_loop data rest acc'
  end.

(** [ret] once the loops are over: [{"history": {date: sum, ...}}]. *)
Definition world_ret (acc : list (string * Z)) : json :=
  JDict [("history", JDict (map (fun p => (fst p, JInt (snd p))) acc))].

Definition history_region_world_body (fs : snapshot_store) (data_type : string)
  : result response :=
  data <- read_json fs (history_file data_type) ;;
  ds <- keys data ;;
  acc <- world_loop data ds [] ;;
  Ok (jsonify (world_ret acc)).

Definition history_region_world (fs : snapshot_store) (data_type : string)
  : response :=
  except_any (history_region_world_body fs data_type).

(* ================================================================== *)
(** ** The result cache *)

(** [cache = Cache(app, config={"CACHE_TYPE": "simple",
    "CACHE_DEFAULT_TIMEOUT": 15 * 60})]: the time to live, in seconds. *)
Definition CACHE_DEFAULT_TIMEOUT : Z := 15 * 60.

(** A key is the operation name with its positional arguments. *)
Definition cache_key : Type := (string * list string)%type.

Fixpoint args_eqb (a b : list string) : bool :=
  match a, b with
  | [], [] => true
  | x :: a', y :: b' => String.eqb x y && args_eqb a' b'
  | _, _ => false
  end.

Definition key_eqb (a b : cache_key) : bool :=
  String.eqb (fst a) (fst b) && args_eqb (snd a) (snd b).

Record cache_entry : Type := mkEntry { entry_value : response; entry_expiry : Z }.

Definition cache_state : Type := list (cache_key * cache_entry).

Fixpoint cache_get (c : cache_state) (k : cache_key) : option cache_entry :=
  match c with
  | [] => None
  | (k', e) :: rest => if key_eqb k' k then Some e else cache_get rest k
  end.

Fixpoint cache_set (c : cache_state) (k : cache_key) (e : cache_entry)
  : cache_state :=
  match c with
  | [] => [(k, e)]
  | (k', e') :: rest =>
      if key_eqb k' k then (k', e) :: rest else (k', e') :: cache_set rest k e
  end.

(** Modelled from the spec: [@cache.memoize()] of [flask_caching], which is
    not part of [src/app.py] (section 4.4, [getOrCompute]).  On a hit with an
    unexpired entry the stored response is returned and [compute] is not run;
    on a miss or an expired entry [compute] runs, and its response is stored
    with expiry [now + CACHE_DEFAULT_TIMEOUT] and returned.  [W] is the state
    the memoized computation runs in: running it is visible as a change of
    that state. *)
Definition getOrCompute {W : Type} (now : Z) (key : cache_key)
  (compute : W -> response * W) (c : cache_state) (w : W)
  : response * cache_state * W :=
  match cache_get c key with
  | Some e =>
      if (now <? entry_expiry e)%Z then (entry_value e, c, w)
      else
        let (r, w') := compute w in
        (r, cache_set c key (mkEntry r (now + CACHE_DEFAULT_TIMEOUT)), w')
  | None =>
      let (r, w') := compute w in
      (r, cache_set c key (mkEntry r (now + CACHE_DEFAULT_TIMEOUT)), w')
  end.

(** No entry for [key] that is still fresh at [now]. *)
Definition stale (c : cache_state) (key : cache_key) (now : Z) : bool :=
  match cache_get c key with
  | Some e => negb (now <? entry_expiry e)%Z
  | None => true
  end.


(** [@cache.memoize() def all_country(country)], run against the store that
    is current at the time of the call; the [nat] counts the runs of the
    decorated function. *)
Definition memo_all_country (fs : snapshot_store) (now : Z) (country : string)
  (c : cache_state) (runs : nat) : response * cache_state * nat :=
  getOrCompute now ("all_country", [country])
    (fun n => (all_country fs country, S n)) c runs.

(* ================================================================== *)
(** ** Vocabulary of the statements *)

(** Keys are pairwise different, as in every Python dict. *)
Fixpoint distinct (l : list string) : bool :=
  match l with
  | [] => true
  | x :: rest => negb (existsb (String.eqb x) rest) && distinct rest
  end.

Definition is_str (r : result json) : bool :=
  match r with Ok (JStr _) => true | _ => false end.

Definition str_of (r : result json) : string :=
  match r with Ok (JStr s) => s | _ => "" end.

(** An entity of the flat snapshot [data.json] with its three identifiers. *)
Definition flat_wf (x : json) : bool :=
  is_str (getitem x "country") && is_str (getitem x "iso2")
  && is_str (getitem x "iso3").

(** The matcher succeeds on a flat entity. *)
Definition flat_hit (country : string) (x : json) : bool :=
  flat_wf x
  && matches country (str_of (getitem x "country")) (str_of (getitem x "iso2"))
       (str_of (getitem x "iso3")).

(** An entry of a keyed snapshot with its two codes. *)
Definition keyed_wf (p : string * json) : bool :=
  is_str (getitem (snd p) "iso2") && is_str (getitem (snd p) "iso3").

(** The matcher succeeds on an entry of a keyed snapshot. *)
Definition keyed_hit (country : string) (p : string * json) : bool :=
  keyed_wf p
  && matches country (fst p) (str_of (getitem (snd p) "iso2"))
       (str_of (getitem (snd p) "iso3")).

(** An entry of a regional snapshot: two codes and a dict of regions. *)
Definition regional_wf (p : string * json) : bool :=
  keyed_wf p
  && match getitem (snd p) "regions" with
     | Ok (JDict rs) => distinct (dict_keys rs)
     | _ => false
     end.

(** The entity has a region whose name equals [region_name] up to case. *)
Definition has_region (e : json) (region_name : string) : bool :=
  match getitem e "regions" with
  | Ok (JDict rs) => existsb (fun p => region_matches (fst p) region_name) rs
  | _ => false
  end.

Definition country_not_found : response :=
  response_error ("CountryNotFound : " ++ not_found_msg) 404.

Definition region_not_found : response :=
  response_error ("RegionNotFound : " ++ not_found_msg) 404.

(** The history of an entity is a dict with unique dates whose counts [int]
    accepts. *)
Definition history_wf (e : json) : bool :=
  match getitem e "history" with
  | Ok (JDict h) =>
      distinct (dict_keys h) && forallb (fun p => is_ok (py_int (snd p))) h
  | _ => false
  end.


(** Entity [e] has an entry for [date]. *)
Definition has_date (e : json) (date : string) : bool :=
  match getitem e "history" with
  | Ok (JDict h) => existsb (String.eqb date) (dict_keys h)
  | _ => false
  end.

(** The count entity [e] stores for [date], coerced by [int]; 0 when the
    entity has no entry for that date. *)
Definition count_of (e : json) (date : string) : Z :=
  match getitem e "history" with
  | Ok (JDict h) =>
      match dict_get h date with
      | Some v => match py_int v with Ok n => n | Raise _ => 0%Z end
      | None => 0%Z
      end
  | _ => 0%Z
  end.

(** The sum over all entities of their count for [date]. *)
Definition world_sum (data : list (string * json)) (date : string) : Z :=
  fold_right (fun p s => (count_of (snd p) date + s)%Z) 0%Z data.

(** [q] occurs as a contiguous part of [s]. *)
Definition occurs_in (q s : string) : Prop :=
  exists pre suf, s = pre ++ q ++ suf.

(** The first exception the three subscripts of [all_country]'s call to the
    matcher raise on entity [x], if any. *)
Definition flat_field_error (x : json) : option exn :=
  match getitem x "country" with
  | Raise e => Some e
  | Ok _ =>
      match getitem x "iso2" with
      | Raise e => Some e
      | Ok _ => match getitem x "iso3" with Raise e => Some e | Ok _ => None end
      end
  end.

(** The same for an entry of a keyed snapshot ([history_country]). *)
Definition keyed_field_error (p : string * json) : option exn :=
  match getitem (snd p) "iso2" with
  | Raise e => Some e
  | Ok _ => match getitem (snd p) "iso3" with Raise e => Some e | Ok _ => None end
  end.

(** The matcher fails on a flat entity that has its three identifiers. *)
Definition flat_miss (country : string) (x : json) : bool :=
  flat_wf x
  && negb (matches country (str_of (getitem x "country"))
             (str_of (getitem x "iso2")) (str_of (getitem x "iso3"))).

(** The matcher fails on an entry of a keyed snapshot that has its codes. *)
Definition keyed_miss (country : string) (p : string * json) : bool :=
  keyed_wf p
  && negb (matches country (fst p) (str_of (getitem (snd p) "iso2"))
             (str_of (getitem (snd p) "iso3"))).

(** What [all_country] evaluates on one entity before it decides. *)
Definition flat_probe (country : string) (region : json) : result bool :=
  name <- getitem region "country" ;;
  iso2 <- getitem region "iso2" ;;
  iso3 <- getitem region "iso3" ;;
  pattern_match country name iso2 iso3.

(** What the keyed handlers evaluate on one key before they decide: the
    entity stored under the key and the verdict of the matcher. *)
Definition keyed_probe (country : string) (data : json) (k : string)
  : result (json * bool) :=
  entity <- getitem data k ;;
  iso2 <- getitem entity "iso2" ;;
  iso3 <- getitem entity "iso3" ;;
  m <- pattern_match country (JStr k) iso2 iso3 ;;
  Ok (entity, m).

(** Every entry of [es] is what the dict [d] stores under its key. *)
Definition stored_in (d es : list (string * json)) : Prop :=
  forall k e, In (k, e) es -> dict_get d k = Some e.

(** The first region of entity [e], in stored order, whose name equals
    [region_name] up to case. *)
Definition find_region (e : json) (region_name : string) : option json :=
  match getitem e "regions" with
  | Ok (JDict rs) =>
      option_map snd (find (fun p => region_matches (fst p) region_name) rs)
  | _ => None
  end.

(** The region [history_region] answers with: the entries of the snapshot
    are tried in stored order, and each one the matcher accepts is searched
    for the region. *)
Fixpoint resolve_region (country region_name : string)
  (d : list (string * json)) : option json :=
  match d with
  | [] => None
  | p :: rest =>
      if keyed_hit country p then
        match find_region (snd p) region_name with
        | Some v => Some v
        | None => resolve_region country region_name rest
        end
      else resolve_region country region_name rest
  end.

(** The second half of C1 as stated: a country query that resolves to no
    entity of the snapshot is answered with [CountryNotFound]. *)
Definition unresolved_country_reported (fs : snapshot_store)
  (data_type country region_name : string) : Prop :=
  forall d,
    fs (region_file data_type country) = Loaded (JDict d) ->
    (forall p, In p d -> keyed_hit country p = false) ->
    exists msg,
      history_region fs data_type country region_name
      = response_error ("CountryNotFound : " ++ msg) 404.

Definition country_not_found_all : response :=
  response_error ("CountryNotFound : " ++ country_not_found_msg) 404.

(** An exception of a class other than the two not-found classes. *)
Definition ordinary (e : exn) : Prop :=
  is_RegionNotFound (exn_cls e) = false /\ is_CountryNotFound (exn_cls e) = false.

(** The [regions] mapping of the first entry the matcher accepts. *)
Definition resolve_regions (country : string) (d : list (string * json))
  : option json :=
  match find (keyed_hit country) d with
  | Some p =>
      match getitem (snd p) "regions" with Ok v => Some v | Raise _ => None end
  | None => None
  end.

(** The tuple [("us", "united states", "usa")] of the regional handlers. *)
Definition us_names : list string := ["us"; "united states"; "usa"].

(** The (date, count) pairs the inner loop of [history_region_world] feeds
    into the accumulator for one history, in the order of the loop. *)
Fixpoint history_pairs (hist : json) (hs : list string)
  : result (list (string * Z)) :=
  match hs with
  | [] => Ok []
  | h :: rest =>
      v <- getitem hist h ;;
      n <- py_int v ;;
      ps <- history_pairs hist rest ;;
      Ok ((h, n) :: ps)
  end.

(** The pairs of the entity stored under key [d]. *)
Definition entity_pairs (data : json) (d : string) : result (list (string * Z)) :=
  entity <- getitem data d ;;
  hist <- getitem entity "history" ;;
  hs <- keys hist ;;
  history_pairs hist hs.

(** The pairs of all entities, in the order of the outer loop. *)
Fixpoint world_pairs (data : json) (ds : list string)
  : result (list (string * Z)) :=
  match ds with
  | [] => Ok []
  | d :: rest =>
      ps <- entity_pairs data d ;;
      qs <- world_pairs data rest ;;
      Ok (ps ++ qs)%list
  end.

(** Feeding a list of pairs into the accumulator. *)
Definition accumulate (ps : list (string * Z)) (acc : list (string * Z))
  : list (string * Z) :=
  fold_left (fun a p => acc_step a (fst p) (snd p)) ps acc.

(** The sum of the counts paired with [date]. *)
Definition tally (ps : list (string * Z)) (date : string) : Z :=
  fold_right (fun p s => if String.eqb (fst p) date then (snd p + s)%Z else s)
    0%Z ps.

Definition mentions (ps : list (string * Z)) (date : string) : bool :=
  existsb (fun p => String.eqb (fst p) date) ps.

Definition pairs_or_nil (r : result (list (string * Z))) : list (string * Z) :=
  match r with Ok ps => ps | Raise _ => [] end.

Definition int_or_zero (v : json) : Z :=
  match py_int v with Ok n => n | Raise _ => 0%Z end.

Definition sum_Z (l : list Z) : Z := fold_right Z.add 0%Z l.

(* ================================================================== *)
(** ** Sample snapshots *)

Definition france : json :=
  JDict [("country", JStr "France"); ("iso2", JStr "FR"); ("iso3", JStr "FRA");
         ("cases", JInt 100)].

Definition finland : json :=
  JDict [("country", JStr "Finland"); ("iso2", JStr "FI"); ("iso3", JStr "FIN");
         ("cases", JInt 7)].

Definition india : json :=
  JDict [("country", JStr "India"); ("iso2", JStr "IN"); ("iso3", JStr "IND");
         ("cases", JInt 9)].

(** An entity without its [iso2] field. *)
Definition nameless : json :=
  JDict [("country", JStr "Atlantis"); ("iso3", JStr "ATL")].

Definition store_of (files : list (string * json)) : snapshot_store :=
  fun name =>
    match dict_get files name with
    | Some v => Loaded v
    | None => LoadFailed "FileNotFoundError" ("No such file: " ++ name)
    end.

Definition world_totals : snapshot_store :=
  store_of [("data.json", JList [france; finland; india])].

Definition broken_totals : snapshot_store :=
  store_of [("data.json", JList [nameless; france])].

Definition us_entity : json :=
  JDict [("iso2", JStr "US"); ("iso3", JStr "USA");
         ("history", JDict [("2021-01-01", JStr "10")]);
         ("regions",
          JDict [("California", JDict [("history", JDict [("2021-01-01", JStr "4")])]);
                 ("Texas", JDict [("history", JDict [("2021-01-01", JStr "6")])])])].

Definition fr_entity : json :=
  JDict [("iso2", JStr "FR"); ("iso3", JStr "FRA");
         ("history", JDict [("2021-01-01", JStr "5")]);
         ("regions", JDict [("Reunion", JDict [("history", JDict [])])])].

Definition sample_store : snapshot_store :=
  store_of
    [("csv_confirmed.json", JDict [("US", us_entity); ("FR", fr_entity)]);
     ("csv_confirmed_region.json", JDict [("FR", fr_entity)]);
     ("csv_confirmed_us_region.json", JDict [("US", us_entity)])].

(** A per-country history snapshot with a count that is no integer. *)
Definition garbled_store : snapshot_store :=
  store_of
    [("csv_deaths.json",
      JDict [("US", us_entity);
             ("XX", JDict [("iso2", JStr "XX"); ("iso3", JStr "XXX");
                           ("history", JDict [("2021-01-01", JStr "n/a")])])])].

(* ================================================================== *)
(** ** The documentation endpoint *)

(** [scheme = 'http' if '5000' in self.base_url else 'https'] of
    [SSLApiDoc.specs_url]. *)
Definition specs_scheme (base_url : string) : string :=
  if substring_of "5000" base_url then "http" else "https".

(** [SSLApiDoc.specs_url]: Flask's [url_for] and the [endpoint] method of
    the [Api] class are taken as parameters. *)
Definition specs_url {U : Type} (url_for : string -> bool -> string -> U)
  (endpoint : string -> string) (base_url : string) : U :=
  url_for (endpoint "specs") true (specs_scheme base_url).

(* ================================================================== *)
(** ** Further vocabulary *)


(** A regional snapshot whose first entry for "au" has no [regions]. *)
Definition regionless_store : snapshot_store :=
  store_of
    [("csv_confirmed_region.json",
      JDict [("Austria", JDict [("iso2", JStr "AT"); ("iso3", JStr "AUT")]);
             ("Australia",
              JDict [("iso2", JStr "AU"); ("iso3", JStr "AUS");
                     ("regions", JDict [("Victoria", JInt 3)])])])].

(** The pairs the inner loop of [history_region_world] reads from one
    entity: [data[d]["history"]], its keys, and the coerced counts. *)
Definition entity_history_pairs (e : json) : result (list (string * Z)) :=
  hist <- getitem e "history" ;;
  hs <- keys hist ;;
  history_pairs hist hs.

(** A per-country history snapshot whose second entity has no [history]. *)
Definition historyless_store : snapshot_store :=
  store_of
    [("csv_recovered.json",
      JDict [("US", us_entity);
             ("XX", JDict [("iso2", JStr "XX"); ("iso3", JStr "XXX")]);
             ("YY", JDict [("history", JDict [("2021-01-01", JStr "n/a")])])])].

(* ================================================================== *)
(** ** The domain on which the model is Python *)

(** Every character is below 128. *)
Fixpoint is_ascii (s : string) : bool :=
  match s with
  | EmptyString => true
  | String c s' => (nat_of_ascii c <? 128)%nat && is_ascii s'
  end.

Definition name_ascii (x : json) : bool :=
  match x with JStr s => is_ascii s | _ => true end.

(** The names the inner loop of [history_region] folds on entity [e] are
    ASCII. *)
Definition region_names_ascii (e : json) : bool :=
  match getitem e "regions" with
  | Ok regions =>
      match iter regions with
      | Ok rs => forallb name_ascii rs
      | Raise _ => true
      end
  | Raise _ => true
  end.

Definition regions_ascii (d : list (string * json)) : bool :=
  forallb (fun p => region_names_ascii (snd p)) d.

(** A count on which [py_int] is Python's [int]: when it is a [str], it is
    ASCII and has at most 4300 characters. *)
Definition count_plain (v : json) : bool :=
  match v with
  | JStr s => is_ascii s && (Z.of_nat (String.length s) <=? 4300)%Z
  | _ => true
  end.

(** The counts of the history of entity [e] are plain. *)
Definition counts_plain (e : json) : bool :=
  match getitem e "history" with
  | Ok (JDict h) => forallb (fun p => count_plain (snd p)) h
  | _ => true
  end.

(** Some entity stores a count that [int] rejects. *)
Definition bad_count (data : list (string * json)) : Prop :=
  exists c e h date v,
    dict_get data c = Some e /\ getitem e "history" = Ok (JDict h) /\
    dict_get h date = Some v /\ count_plain v = true /\
    is_ok (py_int v) = false.

(** Two characters are the same, or the same letter in the two cases. *)
Definition same_letter (c d : ascii) : bool :=
  let m := nat_of_ascii c in
  let n := nat_of_ascii d in
  (m =? n)%nat
  || ((65 <=? m)%nat && (m <=? 90)%nat && (n =? m + 32)%nat)
  || ((65 <=? n)%nat && (n <=? 90)%nat && (m =? n + 32)%nat).

(** Two names differ in the case of their letters at most. *)
Fixpoint same_up_to_case (s t : string) : bool :=
  match s, t with
  | EmptyString, EmptyString => true
  | String c s', String d t' => same_letter c d && same_up_to_case s' t'
  | _, _ => false
  end.




(* ================================================================== *)
(** ** Clauses of the specification that the code does not meet *)

(** A matcher that is as section 4.1 words it: it succeeds exactly when the
    folded query equals a folded field or is a non-empty substring of the
    folded name, and the empty query never matches. *)
Definition matcher_as_claimed (m : string -> string -> string -> string -> bool)
  : Prop :=
  (forall query name iso2 iso3,
      m query name iso2 iso3 = true <->
      lower query = lower name \/ lower query = lower iso2 \/
      lower query = lower iso3 \/
      (lower query <> "" /\ occurs_in (lower query) (lower name)))
  /\ (forall name iso2 iso3, m "" name iso2 iso3 = false).

(** "The region is then looked up within the resolved country": a region
    [history_region] answers with is a region of the first entry the matcher
    accepts, the one [history_region_all] resolves. *)
Definition region_within_resolved_country (fs : snapshot_store)
  (data_type country region_name : string) : Prop :=
  forall d p v,
    fs (region_file data_type country) = Loaded (JDict d) ->
    find (keyed_hit country) d = Some p ->
    history_region fs data_type country region_name = jsonify v ->
    find_region (snd p) region_name = Some v.

(** The literal set of data types. *)
Definition data_types : list string := ["confirmed"; "recovered"; "deaths"].

(** "Any other value fails to load": a data type outside the literal set is
    answered with the generic 500 error. *)
Definition unknown_data_type_fails (fs : snapshot_store) : Prop :=
  forall data_type,
    ~ In data_type data_types ->
    status (history_region_world fs data_type) = 500%Z
    /\ status (history fs data_type) = 500%Z.

(** A regional snapshot in which the query "au" is accepted by two entries,
    the second of which has the region. *)
Definition austral_store : snapshot_store :=
  store_of
    [("csv_deaths_region.json",
      JDict [("Austria",
              JDict [("iso2", JStr "AT"); ("iso3", JStr "AUT");
                     ("regions", JDict [("Tyrol", JInt 1)])]);
             ("Australia",
              JDict [("iso2", JStr "AU"); ("iso3", JStr "AUS");
                     ("regions", JDict [("Victoria", JInt 3)])])])].

(* ================================================================== *)
(** ** Basic facts about strings and dicts *)

Lemma prefix_app (s t : string) :
  String.prefix s t = true <-> exists suf, t = s ++ suf.
Proof.
  revert t; induction s as [|c s IH]; intros t.
  - split; [intros _; exists t; reflexivity | intros _; now destruct t].
  - destruct t as [|d t]; simpl.
    + split; [discriminate | intros [suf H]; discriminate].
    + destruct (Ascii.ascii_dec c d) as [->|Hne].
      * rewrite IH. split; intros [suf H]; exists suf.
        -- now rewrite H.
        -- now inversion H.
      * split; [discriminate | intros [suf H]; inversion H; subst; now elim Hne].
Qed.

Lemma substring_of_occurs (s t : string) :
  substring_of s t = true <-> occurs_in s t.
Proof.
  unfold occurs_in. induction t as [|d t IH].
  - cbn [substring_of]. rewrite orb_false_r, prefix_app. split.
    + intros [suf H]. exists "", suf. exact H.
    + intros [pre [suf H]]. destruct pre; simpl in H.
      * exists suf; exact H.
      * discriminate.
  - cbn [substring_of]. rewrite orb_true_iff, IH, prefix_app. split.
    + intros [[suf H] | [pre [suf H]]].
      * exists "", suf. exact H.
      * exists (String d pre), suf. simpl. now rewrite H.
    + intros [pre [suf H]]. destruct pre as [|c pre]; simpl in H.
      * left. exists suf; exact H.
      * right. inversion H. exists pre, suf. reflexivity.
Qed.

Lemma lower_length (s : string) : String.length (lower s) = String.length s.
Proof. induction s; simpl; congruence. Qed.

Lemma lower_empty (s : string) : lower s = "" -> s = "".
Proof. destruct s; simpl; [reflexivity | discriminate]. Qed.

Lemma existsb_eqb_In (x : string) (l : list string) :
  existsb (String.eqb x) l = true <-> In x l.
Proof.
  rewrite existsb_exists. split.
  - intros [y [Hy E]]. apply String.eqb_eq in E. now subst.
  - intros H. exists x. split; [exact H | apply String.eqb_refl].
Qed.

Lemma distinct_NoDup (l : list string) : distinct l = true <-> NoDup l.
Proof.
  induction l as [|x l IH]; simpl.
  - split; [constructor | reflexivity].
  - rewrite andb_true_iff, negb_true_iff, IH. split.
    + intros [H1 H2]. constructor; [|exact H2].
      intros Hin. apply existsb_eqb_In in Hin. congruence.
    + intros H. inversion H as [|? ? Hn Hd]; subst. split; [|exact Hd].
      destruct (existsb (String.eqb x) l) eqn:E; [|reflexivity].
      apply existsb_eqb_In in E. contradiction.
Qed.

Lemma dict_get_In {V : Type} (d : list (string * V)) (k : string) (v : V) :
  dict_get d k = Some v -> In (k, v) d.
Proof.
  induction d as [|[k' v'] d IH]; simpl; [discriminate|].
  destruct (String.eqb k' k) eqn:E.
  - apply String.eqb_eq in E. intros H; inversion H; subst. now left.
  - intros H. right. now apply IH.
Qed.

Lemma dict_get_None {V : Type} (d : list (string * V)) (k : string) :
  dict_get d k = None <-> ~ In k (dict_keys d).
Proof.
  induction d as [|[k' v'] d IH]; simpl.
  - split; [intros _ [] | reflexivity].
  - destruct (String.eqb k' k) eqn:E.
    + apply String.eqb_eq in E. split; [discriminate | intros H; exfalso; apply H; now left].
    + apply String.eqb_neq in E. rewrite IH. split.
      * intros H [H1|H1]; [contradiction | contradiction].
      * intros H H1. apply H. now right.
Qed.

(** In a dict with unique keys every stored pair is found under its key. *)
Lemma dict_get_unique {V : Type} (d : list (string * V)) (k : string) (v : V) :
  NoDup (dict_keys d) -> In (k, v) d -> dict_get d k = Some v.
Proof.
  induction d as [|[k' v'] d IH]; simpl; intros Hnd Hin; [contradiction|].
  inversion Hnd as [|? ? Hn Hd]; subst.
  destruct Hin as [Heq|Hin].
  - inversion Heq; subst. now rewrite String.eqb_refl.
  - destruct (String.eqb k' k) eqn:E.
    + apply String.eqb_eq in E. subst. exfalso. apply Hn.
      change k with (fst (k, v)). now apply in_map.
    + now apply IH.
Qed.

(* ================================================================== *)
(** ** The matcher *)

Lemma matches_spec (query name iso2 iso3 : string) :
  matches query name iso2 iso3 = true <->
  lower query = lower name \/ lower query = lower iso2 \/
  lower query = lower iso3 \/
  (lower query <> "" /\ occurs_in (lower query) (lower name)).
Proof.
  unfold matches. cbv zeta.
  rewrite !orb_true_iff, andb_true_iff, negb_true_iff, !String.eqb_eq,
    String.eqb_neq, substring_of_occurs.
  tauto.
Qed.

(** C9 (counterexample): no matcher is as the claim words it: by the
    equivalence the empty query equals an empty iso2 after folding and so
    matches, which the clause on the empty query forbids. *)
Lemma no_matcher_as_claimed : ~ exists m, matcher_as_claimed m.
Proof.
  intros [m [Hiff Hempty]].
  specialize (Hempty "Hubei" "" "").
  assert (H : m "" "Hubei" "" "" = true).
  { apply Hiff. right. left. reflexivity. }
  rewrite Hempty in H. discriminate.
Qed.

(** C9 (amended): when the query is not empty, or name, iso2 and iso3 are
    all non-empty, the matcher succeeds exactly when the folded query equals
    the folded name, iso2 or iso3, or is a non-empty substring of the folded
    name; the empty query matches no entity whose name and codes are all
    non-empty; and a query that differs from both folded codes and neither
    equals nor occurs in the folded name does not match, even when it occurs
    inside a code. *)
Theorem matcher_characterised :
  forall query name iso2 iso3 : string,
    (query <> "" \/ (name <> "" /\ iso2 <> "" /\ iso3 <> "") ->
     (matches query name iso2 iso3 = true <->
      lower query = lower name \/ lower query = lower iso2 \/
      lower query = lower iso3 \/
      (lower query <> "" /\ occurs_in (lower query) (lower name))))
    /\ (name <> "" -> iso2 <> "" -> iso3 <> "" ->
        matches "" name iso2 iso3 = false)
    /\ (lower query <> lower iso2 -> lower query <> lower iso3 ->
        lower query <> lower name ->
        ~ occurs_in (lower query) (lower name) ->
        matches query name iso2 iso3 = false).
Proof.
  intros query name iso2 iso3. split; [intros _; apply matches_spec|]. split.
  - intros Hn H2 H3.
    destruct (matches "" name iso2 iso3) eqn:E; [|reflexivity].
    apply matches_spec in E. simpl in E.
    destruct E as [E|[E|[E|[E _]]]].
    + symmetry in E. apply lower_empty in E. contradiction.
    + symmetry in E. apply lower_empty in E. contradiction.
    + symmetry in E. apply lower_empty in E. contradiction.
    + exfalso. now apply E.
  - intros H2 H3 Hn Hocc.
    destruct (matches query name iso2 iso3) eqn:E; [|reflexivity].
    apply matches_spec in E. tauto.
Qed.

Lemma matcher_characterised_witness :
  matches "" "France" "FR" "FRA" = false
  /\ matches "F" "Germany" "FR" "FRA" = false
  /\ matches "KoRe" "South Korea" "KR" "KOR" = true.
Proof.
  split; [|split].
  - apply (proj1 (proj2 (matcher_characterised "" "France" "FR" "FRA")));
      discriminate.
  - apply (proj2 (proj2 (matcher_characterised "F" "Germany" "FR" "FRA")));
      try discriminate.
    intros H. apply substring_of_occurs in H. vm_compute in H. discriminate.
  - apply (proj1 (matcher_characterised "KoRe" "South Korea" "KR" "KOR")).
    + left. discriminate.
    + right; right; right. split; [discriminate|].
      exists "south ", "a". reflexivity.
Defined.

(* ================================================================== *)
(** ** Probing one entity *)

Lemma pattern_match_strs (country n a b : string) :
  pattern_match country (JStr n) (JStr a) (JStr b) = Ok (matches country n a b).
Proof. reflexivity. Qed.

Lemma is_str_inv (r : result json) :
  is_str r = true -> r = Ok (JStr (str_of r)).
Proof. destruct r as [[]|]; simpl; intros H; try discriminate; reflexivity. Qed.

Lemma getitem_raise_cls (v : json) (k : string) (e : exn) :
  getitem v k = Raise e -> exn_cls e = KeyError \/ exn_cls e = TypeError.
Proof.
  destruct v; simpl; try (intros H; inversion H; subst; simpl; tauto).
  destruct (dict_get d k); intros H; inversion H; subst; simpl; tauto.
Qed.

Lemma all_country_loop_cons (country : string) (x : json) (rest : list json) :
  all_country_loop country (x :: rest) =
  m <- flat_probe country x ;;
  if m then Ok (jsonify x) else all_country_loop country rest.
Proof.
  cbn [all_country_loop]. unfold flat_probe, bind.
  destruct (getitem x "country"); [|reflexivity].
  destruct (getitem x "iso2"); [|reflexivity].
  destruct (getitem x "iso3"); reflexivity.
Qed.

Lemma flat_probe_wf (country : string) (x : json) :
  flat_wf x = true ->
  flat_probe country x =
  Ok (matches country (str_of (getitem x "country")) (str_of (getitem x "iso2"))
        (str_of (getitem x "iso3"))).
Proof.
  unfold flat_wf. rewrite !andb_true_iff. intros [[H1 H2] H3].
  unfold flat_probe.
  rewrite (is_str_inv _ H1), (is_str_inv _ H2), (is_str_inv _ H3). reflexivity.
Qed.

Lemma flat_probe_hit (country : string) (x : json) :
  flat_hit country x = true -> flat_probe country x = Ok true.
Proof.
  unfold flat_hit. rewrite andb_true_iff. intros [Hwf Hm].
  rewrite (flat_probe_wf _ _ Hwf). now rewrite Hm.
Qed.

Lemma flat_probe_miss (country : string) (x : json) :
  flat_miss country x = true -> flat_probe country x = Ok false.
Proof.
  unfold flat_miss. rewrite andb_true_iff, negb_true_iff. intros [Hwf Hm].
  rewrite (flat_probe_wf _ _ Hwf). now rewrite Hm.
Qed.

Lemma flat_probe_error (country : string) (x : json) (ex : exn) :
  flat_field_error x = Some ex -> flat_probe country x = Raise ex.
Proof.
  unfold flat_field_error, flat_probe, bind.
  destruct (getitem x "country"); [|intros H; now inversion H].
  destruct (getitem x "iso2"); [|intros H; now inversion H].
  destruct (getitem x "iso3"); [discriminate|intros H; now inversion H].
Qed.

Lemma flat_field_error_cls (x : json) (ex : exn) :
  flat_field_error x = Some ex -> is_CountryNotFound (exn_cls ex) = false.
Proof.
  unfold flat_field_error.
  destruct (getitem x "country") eqn:E1.
  2:{ intros H; inversion H; subst.
      destruct (getitem_raise_cls _ _ _ E1) as [-> | ->]; reflexivity. }
  destruct (getitem x "iso2") eqn:E2.
  2:{ intros H; inversion H; subst.
      destruct (getitem_raise_cls _ _ _ E2) as [-> | ->]; reflexivity. }
  destruct (getitem x "iso3") eqn:E3; [discriminate|].
  intros H; inversion H; subst.
  destruct (getitem_raise_cls _ _ _ E3) as [-> | ->]; reflexivity.
Qed.

(** The scan of [all_country] skips a prefix of misses. *)
Lemma all_country_loop_skip (country : string) (pre rest : list json) :
  forallb (flat_miss country) pre = true ->
  all_country_loop country (pre ++ rest) = all_country_loop country rest.
Proof.
  induction pre as [|x pre IH]; [reflexivity|].
  cbn [forallb]. rewrite andb_true_iff. intros [Hx Hpre].
  cbn [app]. rewrite all_country_loop_cons, (flat_probe_miss _ _ Hx).
  cbn [bind]. now apply IH.
Qed.

Lemma keyed_probe_entry (country : string) (d : list (string * json))
  (k : string) (e : json) :
  dict_get d k = Some e -> keyed_wf (k, e) = true ->
  keyed_probe country (JDict d) k =
  Ok (e, matches country k (str_of (getitem e "iso2")) (str_of (getitem e "iso3"))).
Proof.
  intros Hget. unfold keyed_wf. cbn [snd]. rewrite andb_true_iff. intros [H2 H3].
  unfold keyed_probe. cbn [getitem]. rewrite Hget. cbn [bind].
  rewrite (is_str_inv _ H2), (is_str_inv _ H3). reflexivity.
Qed.

Lemma keyed_probe_hit (country : string) (d : list (string * json))
  (k : string) (e : json) :
  dict_get d k = Some e -> keyed_hit country (k, e) = true ->
  keyed_probe country (JDict d) k = Ok (e, true).
Proof.
  intros Hget. unfold keyed_hit. rewrite andb_true_iff. intros [Hwf Hm].
  rewrite (keyed_probe_entry _ _ _ _ Hget Hwf). cbn [fst snd] in Hm.
  now rewrite Hm.
Qed.

Lemma keyed_probe_miss (country : string) (d : list (string * json))
  (k : string) (e : json) :
  dict_get d k = Some e -> keyed_miss country (k, e) = true ->
  keyed_probe country (JDict d) k = Ok (e, false).
Proof.
  intros Hget. unfold keyed_miss. rewrite andb_true_iff, negb_true_iff.
  intros [Hwf Hm].
  rewrite (keyed_probe_entry _ _ _ _ Hget Hwf). cbn [fst snd] in Hm.
  now rewrite Hm.
Qed.

Lemma keyed_probe_error (country : string) (d : list (string * json))
  (k : string) (e : json) (ex : exn) :
  dict_get d k = Some e -> keyed_field_error (k, e) = Some ex ->
  keyed_probe country (JDict d) k = Raise ex.
Proof.
  intros Hget. unfold keyed_field_error, keyed_probe. cbn [snd getitem].
  rewrite Hget. cbn [bind].
  destruct (getitem e "iso2"); [|intros H; now inversion H].
  cbn [bind].
  destruct (getitem e "iso3"); [discriminate|intros H; now inversion H].
Qed.

Lemma keyed_field_error_cls (p : string * json) (ex : exn) :
  keyed_field_error p = Some ex -> is_CountryNotFound (exn_cls ex) = false.
Proof.
  unfold keyed_field_error.
  destruct (getitem (snd p) "iso2") eqn:E2.
  2:{ intros H; inversion H; subst.
      destruct (getitem_raise_cls _ _ _ E2) as [-> | ->]; reflexivity. }
  destruct (getitem (snd p) "iso3") eqn:E3; [discriminate|].
  intros H; inversion H; subst.
  destruct (getitem_raise_cls _ _ _ E3) as [-> | ->]; reflexivity.
Qed.

Lemma history_country_loop_cons (country : string) (data : json) (k : string)
  (rest : list string) :
  history_country_loop country data (k :: rest) =
  p <- keyed_probe country data k ;;
  if snd p then Ok (jsonify (fst p)) else history_country_loop country data rest.
Proof.
  cbn [history_country_loop]. unfold keyed_probe, bind.
  destruct (getitem data k); [|reflexivity].
  destruct (getitem a "iso2"); [|reflexivity].
  destruct (getitem a "iso3"); [|reflexivity].
  destruct (pattern_match _ _ _ _); reflexivity.
Qed.

Lemma stored_in_self (d : list (string * json)) :
  distinct (dict_keys d) = true -> stored_in d d.
Proof.
  intros H k e Hin. apply dict_get_unique; [now apply distinct_NoDup | exact Hin].
Qed.

Lemma stored_in_app_l (d pre rest : list (string * json)) :
  stored_in d (pre ++ rest) -> stored_in d pre.
Proof. intros H k e Hin. apply H. apply in_or_app. now left. Qed.

Lemma history_country_loop_skip (country : string) (d pre : list (string * json))
  (rest : list string) :
  stored_in d pre -> forallb (keyed_miss country) pre = true ->
  history_country_loop country (JDict d) (dict_keys pre ++ rest) =
  history_country_loop country (JDict d) rest.
Proof.
  induction pre as [|[k e] pre IH]; [reflexivity|].
  intros Hst. cbn [forallb]. rewrite andb_true_iff. intros [Hx Hpre].
  cbn [dict_keys map fst app].
  rewrite history_country_loop_cons.
  rewrite (keyed_probe_miss country d k e); [|apply Hst; now left|exact Hx].
  cbn [bind snd]. apply IH; [|exact Hpre].
  intros k' e' Hin. apply Hst. now right.
Qed.

Lemma dict_keys_app {V : Type} (a b : list (string * V)) :
  dict_keys (a ++ b) = (dict_keys a ++ dict_keys b)%list.
Proof. apply map_app. Qed.

(* ================================================================== *)
(** ** Resolving a country *)

(** C3: [all_country] and [history_country] scan the entities in stored
    order and answer with the first one the matcher accepts, whatever
    follows it; when the matcher accepts none, they answer with the 404
    [CountryNotFound] error. *)
Theorem resolveCountry_first_match :
  forall (fs : snapshot_store) (country : string),
    (forall pre e post,
        fs "data.json" = Loaded (JList (pre ++ e :: post)) ->
        forallb (flat_miss country) pre = true ->
        flat_hit country e = true ->
        all_country fs country = jsonify e)
    /\ (forall l,
        fs "data.json" = Loaded (JList l) ->
        forallb (flat_miss country) l = true ->
        all_country fs country = country_not_found)
    /\ (forall data_type pre k e post,
        fs (history_file data_type) = Loaded (JDict (pre ++ (k, e) :: post)) ->
        distinct (dict_keys (pre ++ (k, e) :: post)) = true ->
        forallb (keyed_miss country) pre = true ->
        keyed_hit country (k, e) = true ->
        history_country fs data_type country = jsonify e)
    /\ (forall data_type d,
        fs (history_file data_type) = Loaded (JDict d) ->
        distinct (dict_keys d) = true ->
        forallb (keyed_miss country) d = true ->
        history_country fs data_type country = country_not_found).
Proof.
  intros fs country. repeat split.
  - intros pre e post Hfs Hpre He.
    unfold all_country, all_country_body, read_json. rewrite Hfs.
    cbn [bind iter]. rewrite (all_country_loop_skip _ _ _ Hpre).
    rewrite all_country_loop_cons, (flat_probe_hit _ _ He). reflexivity.
  - intros l Hfs Hl.
    unfold all_country, all_country_body, read_json. rewrite Hfs.
    cbn [bind iter]. rewrite <- (app_nil_r l).
    rewrite (all_country_loop_skip _ _ _ Hl). reflexivity.
  - intros dt pre k e post Hfs Hd Hpre He.
    pose proof (stored_in_self _ Hd) as Hst.
    unfold history_country, history_country_body, read_json. rewrite Hfs.
    cbn [bind keys]. rewrite dict_keys_app.
    rewrite (history_country_loop_skip country _ pre);
      [|now apply stored_in_app_l in Hst|exact Hpre].
    cbn [dict_keys map fst]. rewrite history_country_loop_cons.
    rewrite (keyed_probe_hit country _ k e); [reflexivity| |exact He].
    apply Hst. apply in_or_app. right. now left.
  - intros dt d Hfs Hd Hmiss.
    pose proof (stored_in_self _ Hd) as Hst.
    unfold history_country, history_country_body, read_json. rewrite Hfs.
    cbn [bind keys]. rewrite <- (app_nil_r (dict_keys d)).
    rewrite (history_country_loop_skip country d d); [reflexivity|exact Hst|exact Hmiss].
Qed.

Lemma resolveCountry_first_match_witness :
  all_country world_totals "in" = jsonify finland
  /\ all_country world_totals "germany" = country_not_found
  /\ history_country sample_store "confirmed" "fra" = jsonify fr_entity
  /\ history_country sample_store "confirmed" "germany" = country_not_found.
Proof.
  destruct (resolveCountry_first_match world_totals "in") as [A _].
  destruct (resolveCountry_first_match world_totals "germany") as [_ [B _]].
  destruct (resolveCountry_first_match sample_store "fra") as [_ [_ [C _]]].
  destruct (resolveCountry_first_match sample_store "germany") as [_ [_ [_ D]]].
  split; [|split; [|split]].
  - apply (A [france] finland [india]); reflexivity.
  - apply (B [france; finland; india]); reflexivity.
  - apply (C "confirmed" [("US", us_entity)] "FR" fr_entity []); reflexivity.
  - apply (D "confirmed" [("US", us_entity); ("FR", fr_entity)]); reflexivity.
Defined.

(** C10: when the scan of [all_country] or [history_country] reaches, before
    any match, an entity on which a field subscript raises (an absent [iso2]
    or [iso3] among them), the handler answers with the generic 500 error
    naming that exception and not with the 404 [CountryNotFound], whatever
    entities follow. *)
Theorem resolveCountry_field_error :
  forall (fs : snapshot_store) (country : string),
    (forall pre x post ex,
        fs "data.json" = Loaded (JList (pre ++ x :: post)) ->
        forallb (flat_miss country) pre = true ->
        flat_field_error x = Some ex ->
        all_country fs country = response_error (describe ex) 500
        /\ all_country fs country <> country_not_found)
    /\ (forall data_type pre k e post ex,
        fs (history_file data_type) = Loaded (JDict (pre ++ (k, e) :: post)) ->
        distinct (dict_keys (pre ++ (k, e) :: post)) = true ->
        forallb (keyed_miss country) pre = true ->
        keyed_field_error (k, e) = Some ex ->
        history_country fs data_type country = response_error (describe ex) 500
        /\ history_country fs data_type country <> country_not_found)
    /\ (forall fields,
        dict_get fields "country" <> None -> dict_get fields "iso2" = None ->
        flat_field_error (JDict fields) = Some (mkExn KeyError "'iso2'"))
    /\ (forall k fields,
        dict_get fields "iso2" <> None -> dict_get fields "iso3" = None ->
        keyed_field_error (k, JDict fields) = Some (mkExn KeyError "'iso3'")).
Proof.
  intros fs country.
  assert (A : forall pre x post ex,
             fs "data.json" = Loaded (JList (pre ++ x :: post)) ->
             forallb (flat_miss country) pre = true ->
             flat_field_error x = Some ex ->
             all_country fs country = response_error (describe ex) 500).
  { intros pre x post ex Hfs Hpre Hex.
    unfold all_country, all_country_body, read_json. rewrite Hfs.
    cbn [bind iter]. rewrite (all_country_loop_skip _ _ _ Hpre).
    rewrite all_country_loop_cons, (flat_probe_error _ _ _ Hex).
    cbn [bind except_404]. now rewrite (flat_field_error_cls _ _ Hex). }
  assert (B : forall data_type pre k e post ex,
             fs (history_file data_type) = Loaded (JDict (pre ++ (k, e) :: post)) ->
             distinct (dict_keys (pre ++ (k, e) :: post)) = true ->
             forallb (keyed_miss country) pre = true ->
             keyed_field_error (k, e) = Some ex ->
             history_country fs data_type country
             = response_error (describe ex) 500).
  { intros dt pre k e post ex Hfs Hd Hpre Hex.
    pose proof (stored_in_self _ Hd) as Hst.
    unfold history_country, history_country_body, read_json. rewrite Hfs.
    cbn [bind keys]. rewrite dict_keys_app.
    rewrite (history_country_loop_skip country _ pre);
      [|now apply stored_in_app_l in Hst|exact Hpre].
    cbn [dict_keys map fst]. rewrite history_country_loop_cons.
    rewrite (keyed_probe_error country _ k e ex); [| |exact Hex].
    - cbn [bind except_404]. now rewrite (keyed_field_error_cls _ _ Hex).
    - apply Hst. apply in_or_app. right. now left. }
  repeat split.
  - now apply (A pre x post).
  - rewrite (A pre x post ex) by assumption. discriminate.
  - now apply (B data_type pre k e post).
  - rewrite (B data_type pre k e post ex) by assumption. discriminate.
  - intros fields Hc H2. unfold flat_field_error. cbn [getitem].
    destruct (dict_get fields "country"); [|contradiction].
    now rewrite H2.
  - intros k fields H2 H3. unfold keyed_field_error. cbn [snd getitem].
    destruct (dict_get fields "iso2"); [|contradiction].
    now rewrite H3.
Qed.

Lemma resolveCountry_field_error_witness :
  all_country broken_totals "fr" = response_error "KeyError : 'iso2'" 500
  /\ all_country broken_totals "fr" <> country_not_found.
Proof.
  destruct (resolveCountry_field_error broken_totals "fr") as [A _].
  apply (A [] nameless [france] (mkExn KeyError "'iso2'")); reflexivity.
Defined.

(* ================================================================== *)
(** ** Resolving a region *)

Lemma region_matches_iff (stored region_name : string) :
  region_matches stored region_name = true <-> lower stored = lower region_name.
Proof. unfold region_matches. apply String.eqb_eq. Qed.

Lemma region_matches_length (stored region_name : string) :
  String.length region_name <> String.length stored ->
  region_matches stored region_name = false.
Proof.
  intros H. destruct (region_matches stored region_name) eqn:E; [|reflexivity].
  apply region_matches_iff in E. exfalso. apply H.
  rewrite <- (lower_length region_name), <- (lower_length stored). now rewrite E.
Qed.

(** The inner loop over the keys of a dict of regions is a search for the
    first key equal to the query up to case. *)
Lemma region_loop_find (rs es : list (string * json)) (region_name : string) :
  stored_in rs es ->
  region_loop (JDict rs) region_name (map JStr (dict_keys es)) =
  Ok (option_map (fun p => jsonify (snd p))
        (find (fun p => region_matches (fst p) region_name) es)).
Proof.
  induction es as [|[k v] es IH]; intros Hst; [reflexivity|].
  cbn [dict_keys map fst region_loop find].
  destruct (region_matches k region_name).
  - cbn [getitem]. rewrite (Hst k v); [reflexivity | now left].
  - apply IH. intros k' v' Hin. apply Hst. now right.
Qed.

Lemma history_region_loop_cons (country region_name : string) (data : json)
  (k : string) (rest : list string) :
  history_region_loop country region_name data (k :: rest) =
  p <- keyed_probe country data k ;;
  if snd p then
    regions <- getitem (fst p) "regions" ;;
    rs <- iter regions ;;
    found <- region_loop regions region_name rs ;;
    match found with
    | Some r => Ok r
    | None => history_region_loop country region_name data rest
    end
  else history_region_loop country region_name data rest.
Proof.
  cbn [history_region_loop]. unfold keyed_probe, bind.
  destruct (getitem data k); [|reflexivity].
  destruct (getitem a "iso2"); [|reflexivity].
  destruct (getitem a "iso3"); [|reflexivity].
  destruct (pattern_match _ _ _ _); reflexivity.
Qed.

Lemma keyed_hit_or_miss (country : string) (p : string * json) :
  keyed_wf p = true ->
  (keyed_hit country p = true /\ keyed_miss country p = false)
  \/ (keyed_hit country p = false /\ keyed_miss country p = true).
Proof.
  intros H. unfold keyed_hit, keyed_miss. rewrite H. cbn [andb].
  destruct (matches _ _ _ _); [left|right]; split; reflexivity.
Qed.

Lemma regional_wf_keyed (p : string * json) :
  regional_wf p = true -> keyed_wf p = true.
Proof. unfold regional_wf. rewrite andb_true_iff. tauto. Qed.

(** On a snapshot of well-formed entries the scan of [history_region]
    computes [resolve_region]. *)
Lemma history_region_loop_resolve (country region_name : string)
  (d es : list (string * json)) :
  stored_in d es -> forallb regional_wf es = true ->
  history_region_loop country region_name (JDict d) (dict_keys es) =
  match resolve_region country region_name es with
  | Some v => Ok (jsonify v)
  | None => Raise (mkExn RegionNotFound not_found_msg)
  end.
Proof.
  induction es as [|[k e] es IH]; intros Hst Hwf; [reflexivity|].
  cbn [forallb] in Hwf. apply andb_true_iff in Hwf. destruct Hwf as [Hwf Hes].
  assert (IH' := IH (fun k' e' Hin => Hst k' e' (or_intror Hin)) Hes).
  assert (Hget : dict_get d k = Some e) by (apply Hst; now left).
  cbn [dict_keys map fst resolve_region]. rewrite history_region_loop_cons.
  destruct (keyed_hit_or_miss country (k, e) (regional_wf_keyed _ Hwf))
    as [[Hh _]|[Hh Hm]]; rewrite Hh.
  - rewrite (keyed_probe_hit _ _ _ _ Hget Hh). cbn [bind snd fst].
    unfold regional_wf in Hwf. apply andb_true_iff in Hwf.
    destruct Hwf as [_ Hr]. unfold find_region. cbn [snd] in *.
    destruct (getitem e "regions") as [[| | | | |rs]|]; try discriminate.
    cbn [bind iter].
    rewrite (region_loop_find rs rs region_name (stored_in_self _ Hr)).
    cbn [bind].
    destruct (find _ rs) as [[k' v']|]; cbn [option_map snd]; [reflexivity|].
    exact IH'.
  - rewrite (keyed_probe_miss _ _ _ _ Hget Hm). cbn [bind snd]. exact IH'.
Qed.

Lemma history_region_resolve (fs : snapshot_store)
  (data_type country region_name : string) (d : list (string * json)) :
  fs (region_file data_type country) = Loaded (JDict d) ->
  distinct (dict_keys d) = true ->
  forallb regional_wf d = true ->
  history_region fs data_type country region_name =
  match resolve_region country region_name d with
  | Some v => jsonify v
  | None => region_not_found
  end.
Proof.
  intros Hfs Hd Hwf.
  unfold history_region, history_region_body, read_json. rewrite Hfs.
  cbn [bind keys].
  rewrite (history_region_loop_resolve _ _ d d (stored_in_self _ Hd) Hwf).
  destruct (resolve_region country region_name d); reflexivity.
Qed.

Lemma find_region_none (e : json) (region_name : string) :
  has_region e region_name = false -> find_region e region_name = None.
Proof.
  unfold has_region, find_region.
  destruct (getitem e "regions") as [[| | | | |rs]|]; try reflexivity.
  intros H. destruct (find _ rs) as [p|] eqn:E; [|reflexivity].
  apply find_some in E. destruct E as [Hin Hp].
  assert (existsb (fun p => region_matches (fst p) region_name) rs = true)
    by (apply existsb_exists; now exists p).
  congruence.
Qed.

Lemma resolve_region_none (country region_name : string)
  (d : list (string * json)) :
  (forall p, In p d -> keyed_hit country p = true ->
             has_region (snd p) region_name = false) ->
  resolve_region country region_name d = None.
Proof.
  induction d as [|p d IH]; intros H; [reflexivity|].
  cbn [resolve_region].
  assert (IH' : resolve_region country region_name d = None)
    by (apply IH; intros q Hq; apply H; now right).
  destruct (keyed_hit country p) eqn:E; [|exact IH'].
  rewrite (find_region_none _ _ (H p (or_introl eq_refl) E)). exact IH'.
Qed.

(* ------------------------------------------------------------------ *)
(** *** Which exceptions the operations raise *)

Lemma getitem_ordinary (v : json) (k : string) (e : exn) :
  getitem v k = Raise e -> ordinary e.
Proof.
  intros H. destruct (getitem_raise_cls _ _ _ H) as [E|E];
    unfold ordinary; rewrite E; split; reflexivity.
Qed.

Lemma keys_ordinary (v : json) (e : exn) : keys v = Raise e -> ordinary e.
Proof.
  destruct v; simpl; intros H; inversion H; subst; split; reflexivity.
Qed.

Lemma iter_ordinary (v : json) (e : exn) : iter v = Raise e -> ordinary e.
Proof.
  destruct v; simpl; intros H; inversion H; subst; split; reflexivity.
Qed.

Lemma str_lower_ordinary (v : json) (e : exn) :
  str_lower v = Raise e -> ordinary e.
Proof.
  destruct v; simpl; intros H; inversion H; subst; split; reflexivity.
Qed.

Lemma read_json_ordinary (fs : snapshot_store) (name : string) (e : exn) :
  read_json fs name = Raise e -> ordinary e.
Proof.
  unfold read_json. destruct (fs name); intros H; inversion H; subst.
  split; reflexivity.
Qed.

Lemma pattern_match_ordinary (country : string) (n a b : json) (e : exn) :
  pattern_match country n a b = Raise e -> ordinary e.
Proof.
  unfold pattern_match, bind.
  destruct (str_lower n) eqn:E1; [|intros H; inversion H; subst; eauto using str_lower_ordinary].
  destruct (str_lower a) eqn:E2; [|intros H; inversion H; subst; eauto using str_lower_ordinary].
  destruct (str_lower b) eqn:E3; [discriminate|].
  intros H; inversion H; subst; eauto using str_lower_ordinary.
Qed.

Lemma keyed_probe_ordinary (country : string) (data : json) (k : string)
  (e : exn) :
  keyed_probe country data k = Raise e -> ordinary e.
Proof.
  unfold keyed_probe, bind.
  destruct (getitem data k) eqn:E0;
    [|intros H; inversion H; subst; eauto using getitem_ordinary].
  destruct (getitem a "iso2") eqn:E1;
    [|intros H; inversion H; subst; eauto using getitem_ordinary].
  destruct (getitem a "iso3") eqn:E2;
    [|intros H; inversion H; subst; eauto using getitem_ordinary].
  destruct (pattern_match _ _ _ _) eqn:E3; [discriminate|].
  intros H; inversion H; subst; eauto using pattern_match_ordinary.
Qed.

Lemma region_loop_ordinary (regions : json) (region_name : string)
  (rs : list json) (e : exn) :
  region_loop regions region_name rs = Raise e -> ordinary e.
Proof.
  induction rs as [|r rs IH]; [discriminate|].
  cbn [region_loop].
  destruct r; try (intros H; inversion H; subst; split; reflexivity).
  destruct (region_matches s region_name); [|exact IH].
  unfold bind. destruct (getitem regions s) eqn:E; [discriminate|].
  intros H; inversion H; subst; eauto using getitem_ordinary.
Qed.

(** The only [RegionNotFound] the scan of [history_region] raises is the one
    after its loop. *)
Lemma history_region_loop_raise (country region_name : string) (data : json)
  (ks : list string) (e : exn) :
  history_region_loop country region_name data ks = Raise e ->
  ordinary e \/ e = mkExn RegionNotFound not_found_msg.
Proof.
  induction ks as [|k ks IH].
  - cbn. intros H; inversion H. now right.
  - rewrite history_region_loop_cons. unfold bind.
    destruct (keyed_probe country data k) as [[ent m]|] eqn:E0;
      [|intros H; inversion H; subst; left; eauto using keyed_probe_ordinary].
    cbn [snd fst]. destruct m; [|exact IH].
    destruct (getitem ent "regions") eqn:E1;
      [|intros H; inversion H; subst; left; eauto using getitem_ordinary].
    destruct (iter a) eqn:E2;
      [|intros H; inversion H; subst; left; eauto using iter_ordinary].
    destruct (region_loop a region_name a0) as [[r|]|] eqn:E3.
    + discriminate.
    + exact IH.
    + intros H; inversion H; subst; left; eauto using region_loop_ordinary.
Qed.

Lemma history_region_body_raise (fs : snapshot_store)
  (data_type country region_name : string) (e : exn) :
  history_region_body fs data_type country region_name = Raise e ->
  ordinary e \/ e = mkExn RegionNotFound not_found_msg.
Proof.
  unfold history_region_body, bind.
  destruct (read_json fs _) eqn:E0;
    [|intros H; inversion H; subst; left; eauto using read_json_ordinary].
  destruct (keys a) eqn:E1;
    [|intros H; inversion H; subst; left; eauto using keys_ordinary].
  apply history_region_loop_raise.
Qed.

(** Every response of a body that returns normally is a 200. *)
Lemma history_region_loop_ok (country region_name : string) (data : json)
  (ks : list string) (r : response) :
  history_region_loop country region_name data ks = Ok r -> status r = 200%Z.
Proof.
  induction ks as [|k ks IH]; [discriminate|].
  rewrite history_region_loop_cons. unfold bind.
  destruct (keyed_probe country data k) as [[ent m]|]; [|discriminate].
  cbn [snd fst]. destruct m; [|exact IH].
  destruct (getitem ent "regions"); [|discriminate].
  destruct (iter a); [|discriminate].
  destruct (region_loop a region_name a0) as [[r'|]|] eqn:E3;
    [|exact IH|discriminate].
  intros H; inversion H; subst. clear -E3.
  revert E3. induction a0 as [|x xs IHx]; [discriminate|].
  cbn [region_loop]. destruct x; try discriminate.
  destruct (region_matches s region_name); [|exact IHx].
  unfold bind. destruct (getitem a s); [|discriminate].
  intros H; inversion H; reflexivity.
Qed.

(* ------------------------------------------------------------------ *)
(** *** The not-found outcomes of [history_region] *)

(** C1 (counterexample): the query "germany" resolves to no entity of the
    sample regional snapshot, and [history_region] does not answer with
    [CountryNotFound]. *)
Lemma unresolved_country_not_reported :
  ~ unresolved_country_reported sample_store "confirmed" "germany" "Bavaria".
Proof.
  intros H.
  destruct (H [("FR", fr_entity)] eq_refl) as [msg Hmsg].
  - intros p [<-|[]]. reflexivity.
  - vm_compute in Hmsg. inversion Hmsg.
Qed.

(** C1 (amended): [history_region] fails with [RegionNotFound] whenever no
    entity accepted by the matcher has a region whose name equals the region
    query up to case (region names and query in ASCII), which covers both a
    country that resolves without such a region and a country query that
    resolves to no entity; each of its 404 answers is that [RegionNotFound]
    error, none is [CountryNotFound]. *)
Theorem history_region_not_found :
  forall (fs : snapshot_store) (data_type country region_name : string),
    (forall d,
        fs (region_file data_type country) = Loaded (JDict d) ->
        distinct (dict_keys d) = true ->
        forallb regional_wf d = true ->
        regions_ascii d = true ->
        is_ascii region_name = true ->
        (forall p, In p d -> keyed_hit country p = true ->
                   has_region (snd p) region_name = false) ->
        history_region fs data_type country region_name = region_not_found)
    /\ (status (history_region fs data_type country region_name) = 404%Z ->
        history_region fs data_type country region_name = region_not_found)
    /\ region_not_found
       = mkResponse 404
           (JDict [("error",
                    JStr "RegionNotFound : This region cannot be found. Please try again.")]).
Proof.
  intros fs dt country rn. split; [|split; [|reflexivity]].
  - intros d Hfs Hd Hwf _ _ Hnone.
    rewrite (history_region_resolve fs dt country rn d Hfs Hd Hwf).
    now rewrite (resolve_region_none country rn d Hnone).
  - unfold history_region.
    destruct (history_region_body fs dt country rn) as [r|e] eqn:E.
    + cbn [except_404]. intros Hs. exfalso.
      unfold history_region_body, bind in E.
      destruct (read_json fs _); [|discriminate].
      destruct (keys a); [|discriminate].
      apply history_region_loop_ok in E. rewrite E in Hs. discriminate.
    + cbn [except_404].
      destruct (history_region_body_raise _ _ _ _ _ E) as [[Hr _]| ->].
      * rewrite Hr. cbn. discriminate.
      * reflexivity.
Qed.

Lemma history_region_not_found_witness :
  history_region sample_store "confirmed" "germany" "Bavaria" = region_not_found
  /\ history_region sample_store "confirmed" "usa" "Calif" = region_not_found.
Proof.
  split.
  - apply (proj1 (history_region_not_found sample_store "confirmed" "germany"
                    "Bavaria") [("FR", fr_entity)]); try reflexivity.
    intros p [<-|[]]. discriminate.
  - apply (proj1 (history_region_not_found sample_store "confirmed" "usa"
                    "Calif") [("US", us_entity)]); try reflexivity.
    intros p [<-|[]] _. reflexivity.
Defined.

(* ------------------------------------------------------------------ *)
(** *** Region matching and snapshot selection *)

Lemma history_region_all_loop_cons (country : string) (data : json)
  (k : string) (rest : list string) :
  history_region_all_loop country data (k :: rest) =
  p <- keyed_probe country data k ;;
  if snd p then regions <- getitem (fst p) "regions" ;; Ok (jsonify regions)
  else history_region_all_loop country data rest.
Proof.
  cbn [history_region_all_loop]. unfold keyed_probe, bind.
  destruct (getitem data k); [|reflexivity].
  destruct (getitem a "iso2"); [|reflexivity].
  destruct (getitem a "iso3"); [|reflexivity].
  destruct (pattern_match _ _ _ _); reflexivity.
Qed.

Lemma history_region_all_loop_resolve (country : string)
  (d es : list (string * json)) :
  stored_in d es -> forallb regional_wf es = true ->
  history_region_all_loop country (JDict d) (dict_keys es) =
  match resolve_regions country es with
  | Some v => Ok (jsonify v)
  | None => Raise (mkExn CountryNotFound country_not_found_msg)
  end.
Proof.
  unfold resolve_regions.
  induction es as [|[k e] es IH]; intros Hst Hwf; [reflexivity|].
  cbn [forallb] in Hwf. apply andb_true_iff in Hwf. destruct Hwf as [Hwf Hes].
  assert (IH' := IH (fun k' e' Hin => Hst k' e' (or_intror Hin)) Hes).
  assert (Hget : dict_get d k = Some e) by (apply Hst; now left).
  cbn [dict_keys map fst find]. rewrite history_region_all_loop_cons.
  destruct (keyed_hit_or_miss country (k, e) (regional_wf_keyed _ Hwf))
    as [[Hh _]|[Hh Hm]]; rewrite Hh.
  - rewrite (keyed_probe_hit _ _ _ _ Hget Hh). cbn [bind snd fst].
    unfold regional_wf in Hwf. apply andb_true_iff in Hwf.
    destruct Hwf as [_ Hr]. cbn [snd] in Hr.
    destruct (getitem e "regions"); [reflexivity|discriminate].
  - rewrite (keyed_probe_miss _ _ _ _ Hget Hm). cbn [bind snd]. exact IH'.
Qed.

Lemma is_us_iff (country : string) :
  is_us country = true <-> In (lower country) us_names.
Proof.
  unfold is_us, us_names. cbv zeta. rewrite !orb_true_iff, !String.eqb_eq.
  simpl. intuition congruence.
Qed.

(** C5 (counterexample): on a snapshot in which the query "au" is accepted
    by Austria first and by Australia after it, [history_region] answers the
    region query "victoria" with Australia's region, which is no region of
    the country the query resolves to. *)
Lemma region_beyond_resolved_country :
  ~ region_within_resolved_country austral_store "deaths" "au" "victoria".
Proof.
  intros H.
  specialize (H [("Austria",
                  JDict [("iso2", JStr "AT"); ("iso3", JStr "AUT");
                         ("regions", JDict [("Tyrol", JInt 1)])]);
                 ("Australia",
                  JDict [("iso2", JStr "AU"); ("iso3", JStr "AUS");
                         ("regions", JDict [("Victoria", JInt 3)])])]
                ("Austria",
                 JDict [("iso2", JStr "AT"); ("iso3", JStr "AUT");
                        ("regions", JDict [("Tyrol", JInt 1)])])
                (JInt 3) eq_refl eq_refl eq_refl).
  vm_compute in H. discriminate.
Qed.

(** C5 (amended): [history_region] and [history_region_all] read the US
    regional snapshot exactly when the lower-cased country query is one of
    "us", "united states", "usa", and the generic regional snapshot
    otherwise; their answer depends on no other file.  On a well-formed
    snapshot (region names and query in ASCII) [history_region_all] answers
    with the regions mapping of the first entry the matcher accepts, and
    [history_region] searches the accepted entries in stored order and
    answers with the first region found, which need not belong to the first
    accepted entry. *)
Theorem regional_snapshot_selection :
  forall (fs : snapshot_store) (data_type country region_name : string),
    (In (lower country) us_names ->
     region_file data_type country = "csv_" ++ data_type ++ "_us_region.json")
    /\ (~ In (lower country) us_names ->
        region_file data_type country = "csv_" ++ data_type ++ "_region.json")
    /\ (forall fs' : snapshot_store,
        fs' (region_file data_type country) = fs (region_file data_type country) ->
        history_region fs' data_type country region_name
        = history_region fs data_type country region_name
        /\ history_region_all fs' data_type country
           = history_region_all fs data_type country)
    /\ (forall d,
        fs (region_file data_type country) = Loaded (JDict d) ->
        distinct (dict_keys d) = true ->
        forallb regional_wf d = true ->
        regions_ascii d = true ->
        is_ascii region_name = true ->
        history_region fs data_type country region_name
        = match resolve_region country region_name d with
          | Some v => jsonify v
          | None => region_not_found
          end
        /\ history_region_all fs data_type country
           = match resolve_regions country d with
             | Some v => jsonify v
             | None => country_not_found_all
             end).
Proof.
  intros fs dt country rn. split; [|split; [|split]].
  - intros H. unfold region_file. apply is_us_iff in H. now rewrite H.
  - intros H. unfold region_file.
    destruct (is_us country) eqn:E; [|reflexivity].
    apply is_us_iff in E. contradiction.
  - intros fs' Hsame. split.
    + unfold history_region, history_region_body, read_json. now rewrite Hsame.
    + unfold history_region_all, history_region_all_body, read_json.
      now rewrite Hsame.
  - intros d Hfs Hd Hwf _ _. split.
    + now apply history_region_resolve.
    + unfold history_region_all, history_region_all_body, read_json.
      rewrite Hfs. cbn [bind keys].
      rewrite (history_region_all_loop_resolve _ d d (stored_in_self _ Hd) Hwf).
      destruct (resolve_regions country d); reflexivity.
Qed.

Lemma regional_snapshot_selection_witness :
  region_file "confirmed" "United States" = "csv_confirmed_us_region.json"
  /\ region_file "confirmed" "France" = "csv_confirmed_region.json"
  /\ history_region sample_store "confirmed" "USA" "texas"
     = jsonify (JDict [("history", JDict [("2021-01-01", JStr "6")])])
  /\ history_region_all sample_store "confirmed" "fr"
     = jsonify (JDict [("Reunion", JDict [("history", JDict [])])]).
Proof.
  split; [|split; [|split]].
  - apply (regional_snapshot_selection sample_store "confirmed" "United States" "x").
    simpl. tauto.
  - apply (regional_snapshot_selection sample_store "confirmed" "France" "x").
    simpl. intros [H|[H|[H|[]]]]; discriminate.
  - destruct (regional_snapshot_selection sample_store "confirmed" "USA" "texas")
      as [_ [_ [_ H]]].
    destruct (H [("US", us_entity)] eq_refl eq_refl eq_refl eq_refl eq_refl)
      as [H1 _].
    exact H1.
  - destruct (regional_snapshot_selection sample_store "confirmed" "fr" "x")
      as [_ [_ [_ H]]].
    destruct (H [("FR", fr_entity)] eq_refl eq_refl eq_refl eq_refl eq_refl)
      as [_ H2].
    exact H2.
Defined.

Lemma same_letter_table :
  forallb
    (fun m =>
       forallb
         (fun n =>
            Bool.eqb
              (Ascii.eqb (lower_ascii (ascii_of_nat m))
                 (lower_ascii (ascii_of_nat n)))
              (same_letter (ascii_of_nat m) (ascii_of_nat n)))
         (seq 0 256))
    (seq 0 256) = true.
Proof. vm_compute. reflexivity. Qed.

Lemma same_letter_lower (c d : ascii) :
  same_letter c d = true <-> lower_ascii c = lower_ascii d.
Proof.
  pose proof same_letter_table as T. rewrite forallb_forall in T.
  assert (Hc : In (nat_of_ascii c) (seq 0 256))
    by (apply in_seq; pose proof (nat_ascii_bounded c); lia).
  assert (Hd : In (nat_of_ascii d) (seq 0 256))
    by (apply in_seq; pose proof (nat_ascii_bounded d); lia).
  specialize (T _ Hc). rewrite forallb_forall in T. specialize (T _ Hd).
  rewrite !ascii_nat_embedding in T. apply Bool.eqb_prop in T.
  rewrite <- T. apply Ascii.eqb_eq.
Qed.

Lemma same_up_to_case_lower (s t : string) :
  same_up_to_case s t = true <-> lower s = lower t.
Proof.
  revert t. induction s as [|c s IH]; intros [|d t]; cbn [same_up_to_case lower].
  - split; reflexivity.
  - split; discriminate.
  - split; discriminate.
  - rewrite andb_true_iff, same_letter_lower, IH. split.
    + intros [-> ->]. reflexivity.
    + intros H. inversion H. now split.
Qed.

(** C4: in [history_region] a stored region matches the region query exactly
    when the two names differ in the case of their letters at most, that is,
    when they are equal after folding to lower case (names and query in
    ASCII); the scan of a country's regions answers with the first such
    region and with none when there is no such region, so "california" finds
    "California" and the proper substring "Calif" finds nothing. *)
Theorem region_match_exact :
  forall (regions : list (string * json)) (region_name : string),
    distinct (dict_keys regions) = true ->
    is_ascii region_name = true ->
    forallb (fun p => is_ascii (fst p)) regions = true ->
    (forall stored,
        is_ascii stored = true ->
        (region_matches stored region_name = true
         <-> same_up_to_case stored region_name = true)
        /\ (region_matches stored region_name = true
            <-> lower stored = lower region_name))
    /\ region_loop (JDict regions) region_name (map JStr (dict_keys regions))
       = Ok (option_map (fun p => jsonify (snd p))
               (find (fun p => region_matches (fst p) region_name) regions))
    /\ (forall stored,
        is_ascii stored = true ->
        String.length region_name <> String.length stored ->
        region_matches stored region_name = false)
    /\ region_matches "California" "california" = true
    /\ region_matches "California" "Calif" = false.
Proof.
  intros regions rn Hd _ _. split; [|split; [|split; [|split]]].
  - intros stored _. split.
    + rewrite same_up_to_case_lower. apply region_matches_iff.
    + apply region_matches_iff.
  - apply region_loop_find. now apply stored_in_self.
  - intros stored _. apply region_matches_length.
  - reflexivity.
  - reflexivity.
Qed.

Lemma region_match_exact_witness :
  region_loop (JDict [("California", JInt 1); ("Texas", JInt 2)]) "california"
    [JStr "California"; JStr "Texas"] = Ok (Some (jsonify (JInt 1)))
  /\ region_loop (JDict [("California", JInt 1); ("Texas", JInt 2)]) "Calif"
       [JStr "California"; JStr "Texas"] = Ok None.
Proof.
  split.
  - apply (proj1 (proj2 (region_match_exact
                           [("California", JInt 1); ("Texas", JInt 2)]
                           "california" eq_refl eq_refl eq_refl))).
  - apply (proj1 (proj2 (region_match_exact
                           [("California", JInt 1); ("Texas", JInt 2)]
                           "Calif" eq_refl eq_refl eq_refl))).
Defined.

(* ================================================================== *)
(** ** The accumulator of [history_region_world] *)

Lemma dict_get_set {V : Type} (d : list (string * V)) (k k' : string) (v : V) :
  dict_get (dict_set d k v) k' = if String.eqb k k' then Some v else dict_get d k'.
Proof.
  induction d as [|[k0 v0] d IH]; cbn [dict_set dict_get].
  - reflexivity.
  - destruct (String.eqb k0 k) eqn:E0; cbn [dict_get].
    + apply String.eqb_eq in E0. subst k0.
      destruct (String.eqb k k'); reflexivity.
    + destruct (String.eqb k0 k') eqn:E1.
      * apply String.eqb_eq in E1. subst k0.
        rewrite String.eqb_sym in E0. now rewrite E0.
      * exact IH.
Qed.

Lemma dict_keys_set {V : Type} (d : list (string * V)) (k : string) (v : V) :
  dict_keys (dict_set d k v) =
  if existsb (String.eqb k) (dict_keys d) then dict_keys d
  else (dict_keys d ++ [k])%list.
Proof.
  induction d as [|[k0 v0] d IH]; cbn [dict_set dict_keys map fst existsb app].
  - reflexivity.
  - rewrite (String.eqb_sym k k0).
    destruct (String.eqb k0 k); cbn [map fst orb]; [reflexivity|].
    fold (dict_keys d). fold (dict_keys (dict_set d k v)). rewrite IH.
    destruct (existsb (String.eqb k) (dict_keys d)); reflexivity.
Qed.

Lemma dict_set_NoDup {V : Type} (d : list (string * V)) (k : string) (v : V) :
  NoDup (dict_keys d) -> NoDup (dict_keys (dict_set d k v)).
Proof.
  intros H. rewrite dict_keys_set.
  destruct (existsb (String.eqb k) (dict_keys d)) eqn:E; [exact H|].
  apply NoDup_app; [exact H | repeat constructor; intros [] |].
  intros x Hx [<-|[]]. apply existsb_eqb_In in Hx. congruence.
Qed.

Lemma acc_step_get (acc : list (string * Z)) (h k : string) (n : Z) :
  dict_get (acc_step acc h n) k =
  if String.eqb h k then
    Some (match dict_get acc h with Some v => v + n | None => n end)%Z
  else dict_get acc k.
Proof.
  unfold acc_step. destruct (dict_get acc h); apply dict_get_set.
Qed.

Lemma acc_step_NoDup (acc : list (string * Z)) (h : string) (n : Z) :
  NoDup (dict_keys acc) -> NoDup (dict_keys (acc_step acc h n)).
Proof. unfold acc_step. destruct (dict_get acc h); apply dict_set_NoDup. Qed.

Lemma accumulate_NoDup (ps acc : list (string * Z)) :
  NoDup (dict_keys acc) -> NoDup (dict_keys (accumulate ps acc)).
Proof.
  revert acc. induction ps as [|p ps IH]; intros acc H; [exact H|].
  cbn. apply IH. now apply acc_step_NoDup.
Qed.

(** What the accumulator holds for a date once a list of pairs went in. *)
Lemma accumulate_get (ps acc : list (string * Z)) (date : string) :
  dict_get (accumulate ps acc) date =
  match dict_get acc date with
  | Some v => Some (v + tally ps date)%Z
  | None => if mentions ps date then Some (tally ps date) else None
  end.
Proof.
  revert acc. induction ps as [|[h n] ps IH]; intros acc.
  - cbn. destruct (dict_get acc date); [f_equal; lia | reflexivity].
  - cbn [accumulate fold_left fst snd]. fold (accumulate ps (acc_step acc h n)).
    rewrite IH, acc_step_get. cbn [tally mentions fold_right existsb fst snd].
    fold (tally ps date). fold (mentions ps date).
    destruct (String.eqb h date) eqn:E.
    + apply String.eqb_eq in E. subst h. cbn [orb].
      destruct (dict_get acc date); f_equal; lia.
    + cbn [orb]. reflexivity.
Qed.

Lemma tally_app (ps qs : list (string * Z)) (date : string) :
  tally (ps ++ qs) date = (tally ps date + tally qs date)%Z.
Proof.
  induction ps as [|p ps IH]; cbn [app tally fold_right]; [reflexivity|].
  fold (tally (ps ++ qs) date). fold (tally ps date). rewrite IH.
  destruct (String.eqb (fst p) date); lia.
Qed.

Lemma mentions_app (ps qs : list (string * Z)) (date : string) :
  mentions (ps ++ qs) date = mentions ps date || mentions qs date.
Proof. unfold mentions. apply existsb_app. Qed.

(* ------------------------------------------------------------------ *)
(** *** The loops as a fold over pairs *)

Lemma history_loop_pairs (hist : json) (hs : list string)
  (acc : list (string * Z)) :
  history_loop hist hs acc =
  ps <- history_pairs hist hs ;; Ok (accumulate ps acc).
Proof.
  revert acc. induction hs as [|h hs IH]; intros acc; [reflexivity|].
  cbn [history_loop history_pairs]. unfold bind at 1 2 3 4.
  destruct (getitem hist h); [|reflexivity].
  destruct (py_int a); [|reflexivity].
  rewrite IH. unfold bind. destruct (history_pairs hist hs); reflexivity.
Qed.

Lemma accumulate_app (ps qs acc : list (string * Z)) :
  accumulate (ps ++ qs) acc = accumulate qs (accumulate ps acc).
Proof. unfold accumulate. apply fold_left_app. Qed.

Lemma world_loop_pairs (data : json) (ds : list string)
  (acc : list (string * Z)) :
  world_loop data ds acc =
  ps <- world_pairs data ds ;; Ok (accumulate ps acc).
Proof.
  revert acc. induction ds as [|d ds IH]; intros acc; [reflexivity|].
  cbn [world_loop world_pairs]. unfold entity_pairs, bind.
  destruct (getitem data d); [|reflexivity].
  destruct (getitem a "history"); [|reflexivity].
  destruct (keys a0); [|reflexivity].
  rewrite history_loop_pairs. unfold bind.
  destruct (history_pairs a0 a1); [|reflexivity].
  rewrite IH. unfold bind.
  destruct (world_pairs data ds); [|reflexivity].
  now rewrite accumulate_app.
Qed.

Lemma world_pairs_spec (data : json) (ds : list string) :
  if forallb (fun k => is_ok (entity_pairs data k)) ds
  then world_pairs data ds
       = Ok (flat_map (fun k => pairs_or_nil (entity_pairs data k)) ds)
  else exists e, world_pairs data ds = Raise e.
Proof.
  induction ds as [|d ds IH]; [reflexivity|].
  cbn [forallb world_pairs flat_map].
  destruct (entity_pairs data d) as [ps|e]; cbn [is_ok andb bind pairs_or_nil].
  - destruct (forallb _ ds).
    + now rewrite IH.
    + destruct IH as [e He]. exists e. now rewrite He.
  - now exists e.
Qed.

Lemma tally_flat_map (f : string -> list (string * Z)) (ds : list string)
  (date : string) :
  tally (flat_map f ds) date = sum_Z (map (fun k => tally (f k) date) ds).
Proof.
  induction ds as [|d ds IH]; [reflexivity|].
  cbn [flat_map map sum_Z fold_right]. rewrite tally_app, IH. reflexivity.
Qed.

Lemma mentions_flat_map (f : string -> list (string * Z)) (ds : list string)
  (date : string) :
  mentions (flat_map f ds) date = existsb (fun k => mentions (f k) date) ds.
Proof.
  induction ds as [|d ds IH]; [reflexivity|].
  cbn [flat_map existsb]. now rewrite mentions_app, IH.
Qed.

(** The outcome of the two loops of [history_region_world] on a dict. *)
Lemma world_loop_outcome (data : json) (ds : list string) :
  if forallb (fun k => is_ok (entity_pairs data k)) ds
  then exists acc,
      world_loop data ds [] = Ok acc
      /\ NoDup (dict_keys acc)
      /\ forall date,
          dict_get acc date =
          if existsb (fun k => mentions (pairs_or_nil (entity_pairs data k)) date) ds
          then Some (sum_Z (map (fun k => tally (pairs_or_nil (entity_pairs data k)) date) ds))
          else None
  else exists e, world_loop data ds [] = Raise e.
Proof.
  pose proof (world_pairs_spec data ds) as H.
  rewrite world_loop_pairs.
  destruct (forallb _ ds).
  - rewrite H. cbn [bind]. eexists. split; [reflexivity|]. split.
    + apply accumulate_NoDup. constructor.
    + intros date. rewrite accumulate_get. cbn [dict_get].
      now rewrite mentions_flat_map, tally_flat_map.
  - destruct H as [e He]. exists e. now rewrite He.
Qed.

(* ------------------------------------------------------------------ *)
(** *** Permuting the entities *)

Lemma forallb_perm {A : Type} (f : A -> bool) (l l' : list A) :
  Permutation l l' -> forallb f l = forallb f l'.
Proof.
  induction 1; cbn [forallb]; try congruence.
  destruct (f x), (f y); reflexivity.
Qed.

Lemma existsb_perm {A : Type} (f : A -> bool) (l l' : list A) :
  Permutation l l' -> existsb f l = existsb f l'.
Proof.
  induction 1; cbn [existsb]; try congruence.
  destruct (f x), (f y); reflexivity.
Qed.

Lemma sum_Z_perm (l l' : list Z) : Permutation l l' -> sum_Z l = sum_Z l'.
Proof.
  unfold sum_Z. induction 1; cbn [fold_right]; lia.
Qed.

Lemma dict_get_perm {V : Type} (d d' : list (string * V)) (k : string) :
  NoDup (dict_keys d) -> Permutation d d' -> dict_get d k = dict_get d' k.
Proof.
  intros Hnd Hp.
  assert (Hk : Permutation (dict_keys d) (dict_keys d'))
    by (now apply Permutation_map).
  assert (Hnd' : NoDup (dict_keys d'))
    by (eapply Permutation_NoDup; eassumption).
  destruct (dict_get d k) as [v|] eqn:E.
  - symmetry. apply dict_get_unique; [exact Hnd'|].
    eapply Permutation_in; [exact Hp|]. now apply dict_get_In.
  - symmetry. apply dict_get_None. apply dict_get_None in E.
    intros Hin. apply E. eapply Permutation_in; [|exact Hin].
    now apply Permutation_sym.
Qed.

Lemma entity_pairs_perm (d d' : list (string * json)) (k : string) :
  NoDup (dict_keys d) -> Permutation d d' ->
  entity_pairs (JDict d) k = entity_pairs (JDict d') k.
Proof.
  intros Hnd Hp. unfold entity_pairs. cbn [getitem].
  now rewrite (dict_get_perm d d' k Hnd Hp).
Qed.

Lemma forallb_pointwise {A : Type} (f g : A -> bool) (l : list A) :
  (forall x, f x = g x) -> forallb f l = forallb g l.
Proof. intros H. induction l; cbn; [reflexivity | now rewrite H, IHl]. Qed.

Lemma existsb_pointwise {A : Type} (f g : A -> bool) (l : list A) :
  (forall x, f x = g x) -> existsb f l = existsb g l.
Proof. intros H. induction l; cbn; [reflexivity | now rewrite H, IHl]. Qed.

(** C7: when the entities of the per-country history snapshot are walked in
    another order, [history_region_world] either succeeds both times with the
    same sum for every date, or fails both times with the generic error. *)
Theorem aggregateWorld_order_independent :
  forall (fs fs' : snapshot_store) (data_type : string)
         (d d' : list (string * json)),
    fs (history_file data_type) = Loaded (JDict d) ->
    fs' (history_file data_type) = Loaded (JDict d') ->
    distinct (dict_keys d) = true ->
    Permutation d d' ->
    (exists acc acc',
        history_region_world fs data_type = jsonify (world_ret acc)
        /\ history_region_world fs' data_type = jsonify (world_ret acc')
        /\ forall date, dict_get acc date = dict_get acc' date)
    \/ (status (history_region_world fs data_type) = 500%Z
        /\ status (history_region_world fs' data_type) = 500%Z).
Proof.
  intros fs fs' dt d d' Hfs Hfs' Hd Hp.
  apply distinct_NoDup in Hd.
  assert (Hk : Permutation (dict_keys d) (dict_keys d'))
    by (now apply Permutation_map).
  assert (Hext : forall k, entity_pairs (JDict d') k = entity_pairs (JDict d) k)
    by (intros k; symmetry; now apply entity_pairs_perm).
  unfold history_region_world, history_region_world_body, read_json.
  rewrite Hfs, Hfs'. cbn [bind keys].
  pose proof (world_loop_outcome (JDict d) (dict_keys d)) as H.
  pose proof (world_loop_outcome (JDict d') (dict_keys d')) as H'.
  rewrite (forallb_pointwise _ (fun k => is_ok (entity_pairs (JDict d) k))) in H'
    by (intros k; now rewrite Hext).
  rewrite <- (forallb_perm _ _ _ Hk) in H'.
  destruct (forallb _ (dict_keys d)).
  - left. destruct H as [acc [Ha [_ Hg]]]. destruct H' as [acc' [Ha' [_ Hg']]].
    exists acc, acc'. rewrite Ha, Ha'. cbn [bind except_any].
    split; [reflexivity|]. split; [reflexivity|].
    intros date. rewrite Hg, Hg'.
    rewrite (existsb_pointwise
               (fun k => mentions (pairs_or_nil (entity_pairs (JDict d') k)) date)
               (fun k => mentions (pairs_or_nil (entity_pairs (JDict d) k)) date))
      by (intros k; now rewrite Hext).
    rewrite <- (existsb_perm _ _ _ Hk).
    rewrite (map_ext
               (fun k => tally (pairs_or_nil (entity_pairs (JDict d') k)) date)
               (fun k => tally (pairs_or_nil (entity_pairs (JDict d) k)) date))
      by (intros k; now rewrite Hext).
    rewrite (sum_Z_perm _ _ (Permutation_map _ (Permutation_sym Hk))).
    reflexivity.
  - right. destruct H as [e He]. destruct H' as [e' He'].
    rewrite He, He'. split; reflexivity.
Qed.

Lemma aggregateWorld_order_independent_witness :
  (exists acc acc',
      history_region_world sample_store "confirmed" = jsonify (world_ret acc)
      /\ history_region_world
           (store_of [("csv_confirmed.json",
                       JDict [("FR", fr_entity); ("US", us_entity)])])
           "confirmed" = jsonify (world_ret acc')
      /\ forall date, dict_get acc date = dict_get acc' date)
  \/ (status (history_region_world sample_store "confirmed") = 500%Z
      /\ status (history_region_world
                   (store_of [("csv_confirmed.json",
                               JDict [("FR", fr_entity); ("US", us_entity)])])
                   "confirmed") = 500%Z).
Proof.
  apply (aggregateWorld_order_independent sample_store
           (store_of [("csv_confirmed.json",
                       JDict [("FR", fr_entity); ("US", us_entity)])])
           "confirmed"
           [("US", us_entity); ("FR", fr_entity)]
           [("FR", fr_entity); ("US", us_entity)]).
  - reflexivity.
  - reflexivity.
  - reflexivity.
  - apply perm_swap.
Defined.

(* ------------------------------------------------------------------ *)
(** *** Well-formed histories *)

Lemma history_pairs_wf (h es : list (string * json)) :
  stored_in h es ->
  forallb (fun p => is_ok (py_int (snd p))) es = true ->
  history_pairs (JDict h) (dict_keys es)
  = Ok (map (fun p => (fst p, int_or_zero (snd p))) es).
Proof.
  induction es as [|[k v] es IH]; intros Hst Hok; [reflexivity|].
  cbn [forallb snd] in Hok. apply andb_true_iff in Hok. destruct Hok as [Hv Hes].
  cbn [dict_keys map fst snd history_pairs getitem].
  rewrite (Hst k v (or_introl eq_refl)). cbn [bind].
  unfold int_or_zero. destruct (py_int v); [|discriminate]. cbn [bind].
  fold (dict_keys es).
  rewrite (IH (fun k' v' Hin => Hst k' v' (or_intror Hin)) Hes). reflexivity.
Qed.

Lemma mentions_history (h : list (string * json)) (date : string) :
  mentions (map (fun p => (fst p, int_or_zero (snd p))) h) date
  = existsb (String.eqb date) (dict_keys h).
Proof.
  unfold mentions. induction h as [|[k v] h IH]; [reflexivity|].
  cbn [map existsb fst dict_keys]. fold (dict_keys h).
  now rewrite IH, (String.eqb_sym k date).
Qed.

Lemma tally_unmentioned (ps : list (string * Z)) (date : string) :
  mentions ps date = false -> tally ps date = 0%Z.
Proof.
  unfold mentions. induction ps as [|p ps IH]; [reflexivity|].
  cbn [existsb tally fold_right]. intros H. apply orb_false_iff in H.
  destruct H as [H1 H2]. rewrite H1. now apply IH.
Qed.

Lemma tally_history (h : list (string * json)) (date : string) :
  NoDup (dict_keys h) ->
  tally (map (fun p => (fst p, int_or_zero (snd p))) h) date
  = match dict_get h date with Some v => int_or_zero v | None => 0%Z end.
Proof.
  induction h as [|[k v] h IH]; intros Hnd; [reflexivity|].
  inversion Hnd as [|? ? Hn Hd]; subst.
  cbn [map tally fold_right fst snd dict_get].
  fold (tally (map (fun p => (fst p, int_or_zero (snd p))) h) date).
  destruct (String.eqb k date) eqn:E.
  - apply String.eqb_eq in E. subst k.
    rewrite tally_unmentioned; [lia|].
    rewrite mentions_history.
    destruct (existsb (String.eqb date) (dict_keys h)) eqn:E; [|reflexivity].
    apply existsb_eqb_In in E. contradiction.
  - now apply IH.
Qed.

Lemma entity_pairs_wf (d : list (string * json)) (k : string) (e : json) :
  dict_get d k = Some e -> history_wf e = true ->
  exists ps,
    entity_pairs (JDict d) k = Ok ps
    /\ (forall date, tally ps date = count_of e date)
    /\ (forall date, mentions ps date = has_date e date).
Proof.
  intros Hget. unfold history_wf, entity_pairs, count_of, has_date.
  cbn [getitem]. rewrite Hget. cbn [bind].
  destruct (getitem e "history") as [[| | | | |h]|]; try discriminate.
  rewrite andb_true_iff. intros [Hd Hok]. cbn [bind keys].
  rewrite (history_pairs_wf h h (stored_in_self _ Hd) Hok).
  eexists. split; [reflexivity|]. split; intros date.
  - rewrite tally_history by (now apply distinct_NoDup).
    unfold int_or_zero. reflexivity.
  - apply mentions_history.
Qed.

Lemma world_pairs_wf (d es : list (string * json)) (date : string) :
  stored_in d es ->
  forallb (fun p => history_wf (snd p)) es = true ->
  forallb (fun k => is_ok (entity_pairs (JDict d) k)) (dict_keys es) = true
  /\ sum_Z (map (fun k => tally (pairs_or_nil (entity_pairs (JDict d) k)) date)
              (dict_keys es))
     = world_sum es date
  /\ existsb (fun k => mentions (pairs_or_nil (entity_pairs (JDict d) k)) date)
       (dict_keys es)
     = existsb (fun p => has_date (snd p) date) es.
Proof.
  induction es as [|[k e] es IH]; intros Hst Hwf; [repeat split|].
  cbn [forallb snd] in Hwf. apply andb_true_iff in Hwf. destruct Hwf as [He Hes].
  destruct (IH (fun k' e' Hin => Hst k' e' (or_intror Hin)) Hes) as [I1 [I2 I3]].
  destruct (entity_pairs_wf d k e (Hst k e (or_introl eq_refl)) He)
    as [ps [Hps [Ht Hm]]].
  cbn [dict_keys map fst forallb existsb sum_Z fold_right world_sum snd].
  fold (dict_keys es). rewrite Hps. cbn [is_ok pairs_or_nil andb].
  split; [exact I1|]. split.
  - unfold sum_Z in I2. rewrite I2, Ht. reflexivity.
  - now rewrite I3, Hm.
Qed.







(* ================================================================== *)
(** ** Failures surface as the generic error response *)

Lemma history_pairs_bad (hist : json) (hs : list string) (k : string) (v : json) :
  In k hs -> getitem hist k = Ok v -> is_ok (py_int v) = false ->
  is_ok (history_pairs hist hs) = false.
Proof.
  induction hs as [|h hs IH]; intros Hin Hget Hbad; [contradiction|].
  cbn [history_pairs]. unfold bind.
  destruct (String.eqb h k) eqn:E.
  - apply String.eqb_eq in E. subst h. rewrite Hget.
    destruct (py_int v); [discriminate|reflexivity].
  - destruct Hin as [->|Hin]; [now rewrite String.eqb_refl in E|].
    specialize (IH Hin Hget Hbad).
    destruct (getitem hist h); [|reflexivity].
    destruct (py_int a); [|reflexivity].
    destruct (history_pairs hist hs); [discriminate|reflexivity].
Qed.

Lemma dict_get_key {V : Type} (d : list (string * V)) (k : string) (v : V) :
  dict_get d k = Some v -> In k (dict_keys d).
Proof.
  intros H. apply dict_get_In in H. change k with (fst (k, v)).
  now apply in_map.
Qed.

Lemma bad_count_raises (d : list (string * json)) :
  bad_count d -> exists e, world_loop (JDict d) (dict_keys d) [] = Raise e.
Proof.
  intros [c [e [h [date [v [Hc [Hh [Hv [_ Hbad]]]]]]]]].
  pose proof (world_loop_outcome (JDict d) (dict_keys d)) as H.
  destruct (forallb _ (dict_keys d)) eqn:E; [|exact H].
  exfalso. rewrite forallb_forall in E.
  specialize (E c (dict_get_key _ _ _ Hc)).
  unfold entity_pairs in E. cbn [getitem] in E. rewrite Hc in E.
  cbn [bind] in E. rewrite Hh in E. cbn [bind keys] in E.
  rewrite (history_pairs_bad (JDict h) (dict_keys h) date v) in E.
  - discriminate.
  - eapply dict_get_key; eassumption.
  - cbn [getitem]. now rewrite Hv.
  - exact Hbad.
Qed.

Lemma entity_pairs_stored (d : list (string * json)) (k : string) (e : json) :
  dict_get d k = Some e -> entity_pairs (JDict d) k = entity_history_pairs e.
Proof.
  intros H. unfold entity_pairs, entity_history_pairs. cbn [getitem].
  now rewrite H.
Qed.

Lemma world_pairs_first_failure (data : json) (pre : list string) (k : string)
  (post : list string) (ex : exn) :
  forallb (fun k' => is_ok (entity_pairs data k')) pre = true ->
  entity_pairs data k = Raise ex ->
  world_pairs data (pre ++ k :: post) = Raise ex.
Proof.
  induction pre as [|x pre IH]; intros Hpre Hk.
  - cbn [app world_pairs]. now rewrite Hk.
  - cbn [forallb] in Hpre. apply andb_true_iff in Hpre. destruct Hpre as [Hx Hpre].
    cbn [app world_pairs]. destruct (entity_pairs data x); [|discriminate].
    cbn [bind]. now rewrite (IH Hpre Hk).
Qed.

Lemma history_pairs_first_failure (h hpre : list (string * json))
  (date : string) (v : json) (rest : list string) (ex : exn) :
  stored_in h hpre -> dict_get h date = Some v ->
  forallb (fun p => is_ok (py_int (snd p))) hpre = true ->
  py_int v = Raise ex ->
  history_pairs (JDict h) (dict_keys hpre ++ date :: rest) = Raise ex.
Proof.
  induction hpre as [|[k w] hpre IH]; intros Hst Hd Hok Hv.
  - cbn [dict_keys map app history_pairs getitem]. rewrite Hd. cbn [bind].
    now rewrite Hv.
  - cbn [forallb snd] in Hok. apply andb_true_iff in Hok. destruct Hok as [Hw Hok].
    cbn [dict_keys map fst app history_pairs getitem].
    rewrite (Hst k w (or_introl eq_refl)). cbn [bind].
    destruct (py_int w); [|discriminate]. cbn [bind].
    fold (dict_keys hpre).
    now rewrite (IH (fun k' v' Hin => Hst k' v' (or_intror Hin)) Hd Hok Hv).
Qed.

Lemma history_wf_pairs_ok (d : list (string * json)) (es : list (string * json)) :
  stored_in d es ->
  forallb (fun p => history_wf (snd p)) es = true ->
  forallb (fun k => is_ok (entity_pairs (JDict d) k)) (dict_keys es) = true.
Proof.
  intros Hst Hwf. now destruct (world_pairs_wf d es "" Hst Hwf) as [H _].
Qed.

(** The first entity whose history cannot be read decides the answer. *)
Lemma first_failure_answer (fs : snapshot_store) (data_type : string)
  (pre : list (string * json)) (k : string) (e : json)
  (post : list (string * json)) (ex : exn) :
  fs (history_file data_type) = Loaded (JDict (pre ++ (k, e) :: post)) ->
  distinct (dict_keys (pre ++ (k, e) :: post)) = true ->
  forallb (fun p => history_wf (snd p)) pre = true ->
  entity_history_pairs e = Raise ex ->
  history_region_world fs data_type = response_error (describe ex) 500.
Proof.
  intros Hfs Hd Hpre Hex.
  pose proof (stored_in_self _ Hd) as Hst.
  assert (Hget : dict_get (pre ++ (k, e) :: post) k = Some e)
    by (apply Hst; apply in_or_app; right; now left).
  unfold history_region_world, history_region_world_body, read_json.
  rewrite Hfs. cbn [bind keys]. rewrite world_loop_pairs, dict_keys_app.
  cbn [dict_keys map fst].
  rewrite (world_pairs_first_failure _ (map fst pre) k (map fst post) ex).
  - reflexivity.
  - apply (history_wf_pairs_ok _ pre); [|exact Hpre].
    now apply stored_in_app_l in Hst.
  - now rewrite (entity_pairs_stored _ _ _ Hget).
Qed.

(** In a history the first count [int] rejects decides the exception. *)
Lemma first_bad_count (fields hpre : list (string * json)) (date : string)
  (v : json) (hpost : list (string * json)) (ex : exn) :
  dict_get fields "history" = Some (JDict (hpre ++ (date, v) :: hpost)) ->
  distinct (dict_keys (hpre ++ (date, v) :: hpost)) = true ->
  forallb (fun p => is_ok (py_int (snd p))) hpre = true ->
  py_int v = Raise ex ->
  entity_history_pairs (JDict fields) = Raise ex.
Proof.
  intros Hh Hd Hok Hv.
  pose proof (stored_in_self _ Hd) as Hst.
  unfold entity_history_pairs. cbn [getitem]. rewrite Hh. cbn [bind keys].
  rewrite dict_keys_app. cbn [dict_keys map fst].
  apply (history_pairs_first_failure _ hpre date v); try assumption.
  - now apply stored_in_app_l in Hst.
  - apply Hst. apply in_or_app. right. now left.
Qed.

(** C6 (counterexample): the data type "confirmed_region" is outside the
    literal set, and on the sample store, which holds the regional snapshot
    of "confirmed", [history_region_world] loads that snapshot and answers
    200. *)
Lemma unknown_data_type_served : ~ unknown_data_type_fails sample_store.
Proof.
  intros H. destruct (H "confirmed_region") as [Hs _].
  - cbn. intros [E|[E|[E|[]]]]; discriminate.
  - vm_compute in Hs. discriminate.
Qed.

(** C6 (amended): when the named snapshot fails to load, every handler
    answers with the generic 500 error carrying the class and message of the
    failure; a data type is not checked against the literal set and gets that
    error only if its file fails to load.  When some stored count of the
    per-country history snapshot cannot be read as an integer,
    [history_region_world] answers with a generic 500 error; when the
    entities before and the counts before are readable, that error carries
    the class and message of the exception [int] raises on the first such
    count, a [ValueError] showing the literal (at most 200 characters of
    its [repr]) for a string.  Every answer of [history_region_world] is a
    200 with a history mapping or the 500 error of an exception. *)
Theorem failures_are_structured :
  forall (fs : snapshot_store) (data_type country region_name : string),
    (forall cls msg,
        fs "data.json" = LoadFailed cls msg ->
        all_data fs = response_error (cls ++ " : " ++ msg) 500
        /\ all_country fs country = response_error (cls ++ " : " ++ msg) 500)
    /\ (forall cls msg,
        fs (history_file data_type) = LoadFailed cls msg ->
        history fs data_type = response_error (cls ++ " : " ++ msg) 500
        /\ history_country fs data_type country
           = response_error (cls ++ " : " ++ msg) 500
        /\ history_region_world fs data_type
           = response_error (cls ++ " : " ++ msg) 500)
    /\ (forall cls msg,
        fs (region_file data_type country) = LoadFailed cls msg ->
        history_region fs data_type country region_name
        = response_error (cls ++ " : " ++ msg) 500
        /\ history_region_all fs data_type country
           = response_error (cls ++ " : " ++ msg) 500)
    /\ (forall d,
        fs (history_file data_type) = Loaded (JDict d) ->
        bad_count d ->
        exists e,
          history_region_world fs data_type = response_error (describe e) 500)
    /\ (forall pre k fields post hpre date v hpost ex,
        fs (history_file data_type)
        = Loaded (JDict (pre ++ (k, JDict fields) :: post)) ->
        distinct (dict_keys (pre ++ (k, JDict fields) :: post)) = true ->
        forallb (fun p => history_wf (snd p)) pre = true ->
        forallb (fun p => counts_plain (snd p)) pre = true ->
        dict_get fields "history" = Some (JDict (hpre ++ (date, v) :: hpost)) ->
        distinct (dict_keys (hpre ++ (date, v) :: hpost)) = true ->
        forallb (fun p => is_ok (py_int (snd p))) hpre = true ->
        forallb (fun p => count_plain (snd p)) hpre = true ->
        count_plain v = true ->
        py_int v = Raise ex ->
        history_region_world fs data_type = response_error (describe ex) 500)
    /\ (forall s,
        count_plain (JStr s) = true ->
        parse_int s = None ->
        py_int (JStr s)
        = Raise (mkExn ValueError
                   ("invalid literal for int() with base 10: "
                      ++ String.substring 0 200 (quote s))))
    /\ ((exists acc,
            history_region_world fs data_type
            = mkResponse 200
                (JDict [("history",
                         JDict (map (fun p => (fst p, JInt (snd p))) acc))]))
        \/ (exists e,
               history_region_world fs data_type
               = mkResponse 500 (JDict [("error", JStr (describe e))]))).
Proof.
  intros fs dt country rn.
  split; [|split; [|split; [|split; [|split; [|split]]]]].
  - intros cls msg H. split.
    + unfold all_data, read_json. now rewrite H.
    + unfold all_country, all_country_body, read_json. now rewrite H.
  - intros cls msg H. split; [|split].
    + unfold history, read_json. now rewrite H.
    + unfold history_country, history_country_body, read_json. now rewrite H.
    + unfold history_region_world, history_region_world_body, read_json.
      now rewrite H.
  - intros cls msg H. split.
    + unfold history_region, history_region_body, read_json. now rewrite H.
    + unfold history_region_all, history_region_all_body, read_json.
      now rewrite H.
  - intros d Hfs Hbad. destruct (bad_count_raises d Hbad) as [e He].
    exists e.
    unfold history_region_world, history_region_world_body, read_json.
    rewrite Hfs. cbn [bind keys]. now rewrite He.
  - intros pre k fields post hpre date v hpost ex
           Hfs Hd Hpre _ Hh Hhd Hok _ _ Hv.
    apply (first_failure_answer fs dt pre k (JDict fields) post ex Hfs Hd Hpre).
    exact (first_bad_count fields hpre date v hpost ex Hh Hhd Hok Hv).
  - intros s _ Hs. cbn [py_int]. now rewrite Hs.
  - unfold history_region_world.
    destruct (history_region_world_body fs dt) as [r|e] eqn:E.
    + left. unfold history_region_world_body, bind in E.
      destruct (read_json fs _); [|discriminate].
      destruct (keys a); [|discriminate].
      destruct (world_loop a a0 []) as [acc|]; [|discriminate].
      exists acc. now inversion E.
    + right. now exists e.
Qed.

Lemma failures_are_structured_witness :
  history_region_world sample_store "active"
  = response_error "FileNotFoundError : No such file: csv_active.json" 500
  /\ history_region_world garbled_store "deaths"
     = response_error
         "ValueError : invalid literal for int() with base 10: 'n/a'" 500.
Proof.
  destruct (failures_are_structured sample_store "active" "fr" "x")
    as [_ [A _]].
  destruct (failures_are_structured garbled_store "deaths" "fr" "x")
    as [_ [_ [_ [_ [B _]]]]].
  split.
  - apply (A "FileNotFoundError" "No such file: csv_active.json"). reflexivity.
  - apply (B [("US", us_entity)] "XX"
             [("iso2", JStr "XX"); ("iso3", JStr "XXX");
              ("history", JDict [("2021-01-01", JStr "n/a")])]
             [] [] "2021-01-01" (JStr "n/a") []
             (mkExn ValueError
                "invalid literal for int() with base 10: 'n/a'"));
      reflexivity.
Defined.

(* ================================================================== *)
(** ** The result cache *)

Lemma args_eqb_refl (a : list string) : args_eqb a a = true.
Proof. induction a; cbn; [reflexivity | now rewrite String.eqb_refl]. Qed.

Lemma key_eqb_refl (k : cache_key) : key_eqb k k = true.
Proof. unfold key_eqb. now rewrite String.eqb_refl, args_eqb_refl. Qed.

Lemma cache_get_set (c : cache_state) (k : cache_key) (e : cache_entry) :
  cache_get (cache_set c k e) k = Some e.
Proof.
  induction c as [|[k' e'] c IH]; cbn [cache_set cache_get].
  - now rewrite key_eqb_refl.
  - destruct (key_eqb k' k) eqn:E; cbn [cache_get]; rewrite E;
      [reflexivity | exact IH].
Qed.

(** A call that finds no fresh entry runs the computation and stores its
    response for [CACHE_DEFAULT_TIMEOUT] seconds. *)
Lemma getOrCompute_miss {W : Type} (now : Z) (key : cache_key)
  (compute : W -> response * W) (c : cache_state) (w : W) :
  stale c key now = true ->
  getOrCompute now key compute c w =
  (fst (compute w),
   cache_set c key (mkEntry (fst (compute w)) (now + CACHE_DEFAULT_TIMEOUT)),
   snd (compute w)).
Proof.
  unfold stale, getOrCompute.
  destruct (cache_get c key) as [e|].
  - rewrite negb_true_iff. intros ->. now destruct (compute w).
  - intros _. now destruct (compute w).
Qed.

(** A call that finds a fresh entry serves it and runs nothing. *)
Lemma getOrCompute_hit {W : Type} (now : Z) (key : cache_key)
  (compute : W -> response * W) (c : cache_state) (w : W) (e : cache_entry) :
  cache_get c key = Some e -> (now < entry_expiry e)%Z ->
  getOrCompute now key compute c w = (entry_value e, c, w).
Proof.
  intros Hget Hlt. unfold getOrCompute. rewrite Hget.
  apply Z.ltb_lt in Hlt. now rewrite Hlt.
Qed.

(** C8: the time to live is 15 minutes (900 seconds); of two consecutive
    calls with the same key within that window, the first of which finds no
    fresh entry, only the first runs the computation, and the second is
    served the stored response, whatever it is, without any run; a further
    call once the 900 seconds have passed runs the computation again. *)
Theorem cache_idempotent :
  forall (W : Type) (compute : W -> response * W) (key : cache_key)
         (c0 c1 c2 c3 : cache_state) (w0 w1 w2 w3 : W) (r1 r2 r3 : response)
         (t1 t2 t3 : Z),
    stale c0 key t1 = true ->
    (t1 <= t2 < t1 + 15 * 60)%Z ->
    (t1 + 15 * 60 <= t3)%Z ->
    getOrCompute t1 key compute c0 w0 = (r1, c1, w1) ->
    getOrCompute t2 key compute c1 w1 = (r2, c2, w2) ->
    getOrCompute t3 key compute c2 w2 = (r3, c3, w3) ->
    CACHE_DEFAULT_TIMEOUT = 900%Z
    /\ (r1, w1) = compute w0
    /\ cache_get c1 key = Some (mkEntry r1 (t1 + 900))
    /\ r2 = r1 /\ w2 = w1 /\ c2 = c1
    /\ (r3, w3) = compute w2.
Proof.
  intros W compute key c0 c1 c2 c3 w0 w1 w2 w3 r1 r2 r3 t1 t2 t3
         Hstale Ht2 Ht3 H1 H2 H3.
  rewrite (getOrCompute_miss _ _ _ _ _ Hstale) in H1.
  injection H1 as Hr1 Hc1 Hw1.
  assert (Hget : cache_get c1 key = Some (mkEntry r1 (t1 + 900))).
  { rewrite <- Hc1, Hr1. apply cache_get_set. }
  rewrite (getOrCompute_hit _ _ _ _ _ _ Hget) in H2 by (cbn; lia).
  injection H2 as Hr2 Hc2 Hw2. cbn [entry_value] in Hr2.
  assert (Hstale3 : stale c2 key t3 = true).
  { unfold stale. rewrite <- Hc2, Hget. cbn [entry_expiry].
    apply negb_true_iff, Z.ltb_ge. lia. }
  rewrite (getOrCompute_miss _ _ _ _ _ Hstale3) in H3.
  injection H3 as Hr3 Hc3 Hw3.
  split; [reflexivity|].
  split; [rewrite <- Hr1, <- Hw1; now destruct (compute w0)|].
  split; [exact Hget|]. split; [now symmetry|]. split; [now symmetry|].
  split; [now symmetry|]. rewrite <- Hr3, <- Hw3. now destruct (compute w2).
Qed.

Lemma cache_idempotent_witness :
  CACHE_DEFAULT_TIMEOUT = 900%Z
  /\ (country_not_found, 1) = (all_country world_totals "germany", 1)
  /\ cache_get
       [(("all_country", ["germany"]), mkEntry country_not_found 900)]
       ("all_country", ["germany"])
     = Some (mkEntry country_not_found (0 + 900))
  /\ country_not_found = country_not_found /\ 1 = 1
  /\ [(("all_country", ["germany"]), mkEntry country_not_found 900)]
     = [(("all_country", ["germany"]), mkEntry country_not_found 900)]
  /\ (country_not_found, 2) = (all_country world_totals "germany", 2).
Proof.
  apply (cache_idempotent nat
           (fun n => (all_country world_totals "germany", S n))
           ("all_country", ["germany"])
           []
           [(("all_country", ["germany"]), mkEntry country_not_found 900)]
           [(("all_country", ["germany"]), mkEntry country_not_found 900)]
           [(("all_country", ["germany"]), mkEntry country_not_found 1800)]
           0 1 1 2
           country_not_found country_not_found country_not_found
           0%Z 899%Z 900%Z).
  - reflexivity.
  - lia.
  - lia.
  - reflexivity.
  - reflexivity.
  - reflexivity.
Defined.

(** The memoized [all_country] over three calls: the snapshot is replaced
    between the first and the second call, the second call within the 900
    seconds is served the stored 404 without a run, the third call after
    them runs the handler on the current snapshot. *)
Example memo_all_country_runs :
  let '(r1, c1, n1) := memo_all_country world_totals 0 "germany" [] 0 in
  let '(r2, c2, n2) := memo_all_country broken_totals 899 "germany" c1 n1 in
  let '(r3, c3, n3) := memo_all_country broken_totals 900 "germany" c2 n2 in
  r1 = country_not_found /\ n1 = 1
  /\ r2 = country_not_found /\ n2 = 1
  /\ r3 = response_error "KeyError : 'iso2'" 500 /\ n3 = 2.
Proof. vm_compute. repeat split. Qed.

(* ================================================================== *)
(** ** What a 200 and a 404 of the resolving handlers mean *)

Lemma flat_probe_ordinary (country : string) (x : json) (e : exn) :
  flat_probe country x = Raise e -> ordinary e.
Proof.
  unfold flat_probe, bind.
  destruct (getitem x "country") eqn:E0;
    [|intros H; inversion H; subst; eauto using getitem_ordinary].
  destruct (getitem x "iso2") eqn:E1;
    [|intros H; inversion H; subst; eauto using getitem_ordinary].
  destruct (getitem x "iso3") eqn:E2;
    [|intros H; inversion H; subst; eauto using getitem_ordinary].
  apply pattern_match_ordinary.
Qed.

Lemma all_country_loop_sound (country : string) (l : list json) (r : response) :
  all_country_loop country l = Ok r ->
  exists x, In x l /\ flat_probe country x = Ok true /\ r = jsonify x.
Proof.
  induction l as [|x l IH]; [discriminate|].
  rewrite all_country_loop_cons. unfold bind.
  destruct (flat_probe country x) as [[|]|] eqn:E; [| |discriminate].
  - intros H; inversion H. exists x. repeat split; try assumption. now left.
  - intros H. destruct (IH H) as [y [Hin Hy]]. exists y. split; [now right|exact Hy].
Qed.

Lemma all_country_loop_raise (country : string) (l : list json) (e : exn) :
  all_country_loop country l = Raise e ->
  ordinary e \/ e = mkExn CountryNotFound not_found_msg.
Proof.
  induction l as [|x l IH].
  - cbn. intros H; inversion H. now right.
  - rewrite all_country_loop_cons. unfold bind.
    destruct (flat_probe country x) as [[|]|] eqn:E.
    + discriminate.
    + exact IH.
    + intros H; inversion H; subst. left. eauto using flat_probe_ordinary.
Qed.

Lemma history_country_loop_sound (country : string) (data : json)
  (ks : list string) (r : response) :
  history_country_loop country data ks = Ok r ->
  exists k e, In k ks /\ keyed_probe country data k = Ok (e, true)
              /\ r = jsonify e.
Proof.
  induction ks as [|k ks IH]; [discriminate|].
  rewrite history_country_loop_cons. unfold bind.
  destruct (keyed_probe country data k) as [[e [|]]|] eqn:E; cbn [snd fst];
    [| |discriminate].
  - intros H; inversion H. exists k, e. repeat split; try assumption. now left.
  - intros H. destruct (IH H) as [k' [e' [Hin Hk]]].
    exists k', e'. split; [now right|exact Hk].
Qed.

Lemma history_country_loop_raise (country : string) (data : json)
  (ks : list string) (e : exn) :
  history_country_loop country data ks = Raise e ->
  ordinary e \/ e = mkExn CountryNotFound not_found_msg.
Proof.
  induction ks as [|k ks IH].
  - cbn. intros H; inversion H. now right.
  - rewrite history_country_loop_cons. unfold bind.
    destruct (keyed_probe country data k) as [[ent [|]]|] eqn:E; cbn [snd fst].
    + discriminate.
    + exact IH.
    + intros H; inversion H; subst. left. eauto using keyed_probe_ordinary.
Qed.

Lemma history_region_all_loop_sound (country : string) (data : json)
  (ks : list string) (r : response) :
  history_region_all_loop country data ks = Ok r ->
  exists k e regions,
    In k ks /\ keyed_probe country data k = Ok (e, true)
    /\ getitem e "regions" = Ok regions /\ r = jsonify regions.
Proof.
  induction ks as [|k ks IH]; [discriminate|].
  rewrite history_region_all_loop_cons. unfold bind.
  destruct (keyed_probe country data k) as [[e [|]]|] eqn:E; cbn [snd fst];
    [| |discriminate].
  - destruct (getitem e "regions") as [regions|] eqn:Er; [|discriminate].
    intros H; inversion H. exists k, e, regions.
    repeat split; try assumption. now left.
  - intros H. destruct (IH H) as [k' [e' [rg [Hin Hk]]]].
    exists k', e', rg. split; [now right|exact Hk].
Qed.

Lemma history_region_all_loop_raise (country : string) (data : json)
  (ks : list string) (e : exn) :
  history_region_all_loop country data ks = Raise e ->
  ordinary e \/ e = mkExn CountryNotFound country_not_found_msg.
Proof.
  induction ks as [|k ks IH].
  - cbn. intros H; inversion H. now right.
  - rewrite history_region_all_loop_cons. unfold bind.
    destruct (keyed_probe country data k) as [[ent [|]]|] eqn:E; cbn [snd fst].
    + destruct (getitem ent "regions") eqn:Er; [discriminate|].
      intros H; inversion H; subst. left. eauto using getitem_ordinary.
    + exact IH.
    + intros H; inversion H; subst. left. eauto using keyed_probe_ordinary.
Qed.

Lemma region_loop_sound (regions : json) (region_name : string)
  (rs : list json) (r : response) :
  region_loop regions region_name rs = Ok (Some r) ->
  exists k v, In (JStr k) rs /\ region_matches k region_name = true
              /\ getitem regions k = Ok v /\ r = jsonify v.
Proof.
  induction rs as [|x rs IH]; [discriminate|].
  cbn [region_loop]. destruct x; try discriminate.
  destruct (region_matches s region_name) eqn:Em.
  - unfold bind. destruct (getitem regions s) as [v|] eqn:Eg; [|discriminate].
    intros H; inversion H. exists s, v. repeat split; try assumption. now left.
  - intros H. destruct (IH H) as [k [v [Hin Hk]]].
    exists k, v. split; [now right|exact Hk].
Qed.

Lemma history_region_loop_sound (country region_name : string) (data : json)
  (ks : list string) (r : response) :
  history_region_loop country region_name data ks = Ok r ->
  exists k e regions rk v,
    In k ks /\ keyed_probe country data k = Ok (e, true)
    /\ getitem e "regions" = Ok regions
    /\ region_matches rk region_name = true
    /\ getitem regions rk = Ok v /\ r = jsonify v.
Proof.
  induction ks as [|k ks IH]; [discriminate|].
  rewrite history_region_loop_cons. unfold bind.
  destruct (keyed_probe country data k) as [[e [|]]|] eqn:E; cbn [snd fst];
    [| |discriminate].
  - destruct (getitem e "regions") as [regions|] eqn:Er; [|discriminate].
    destruct (iter regions) as [rs|]; [|discriminate].
    destruct (region_loop regions region_name rs) as [[r'|]|] eqn:El;
      [| |discriminate].
    + intros H; inversion H; subst r'.
      destruct (region_loop_sound _ _ _ _ El) as [rk [v [_ [Hm [Hg Hr]]]]].
      exists k, e, regions, rk, v. repeat split; try assumption. now left.
    + intros H. destruct (IH H) as [k' [e' [rg [rk [v [Hin Hk]]]]]].
      exists k', e', rg, rk, v. split; [now right|exact Hk].
  - intros H. destruct (IH H) as [k' [e' [rg [rk [v [Hin Hk]]]]]].
    exists k', e', rg, rk, v. split; [now right|exact Hk].
Qed.

Lemma keys_dict (data : json) (ks : list string) :
  keys data = Ok ks -> exists d, data = JDict d /\ ks = dict_keys d.
Proof.
  destruct data; try discriminate. cbn. intros H; inversion H. now exists d.
Qed.

Lemma except_404_ok (is_C : exn_class -> bool) (m : result response) :
  status (except_404 is_C m) = 200%Z -> exists r, m = Ok r.
Proof.
  destruct m as [r|e]; [now exists r|].
  cbn. destruct (is_C (exn_cls e)); discriminate.
Qed.

Lemma read_json_ok (fs : snapshot_store) (name : string) (v : json) :
  read_json fs name = Ok v -> fs name = Loaded v.
Proof.
  unfold read_json. destruct (fs name); [|discriminate].
  intros H; now inversion H.
Qed.

Lemma all_country_body_sound (fs : snapshot_store) (country : string)
  (r : response) :
  all_country_body fs country = Ok r ->
  exists data l x,
    fs "data.json" = Loaded data /\ iter data = Ok l /\ In x l
    /\ flat_probe country x = Ok true /\ r = jsonify x.
Proof.
  unfold all_country_body, bind.
  destruct (read_json fs "data.json") as [data|] eqn:E0; [|discriminate].
  destruct (iter data) as [l|] eqn:E1; [|discriminate].
  intros H. destruct (all_country_loop_sound _ _ _ H) as [x [Hin [Hp Hr]]].
  exists data, l, x. repeat split; try assumption. now apply read_json_ok.
Qed.

Lemma all_country_body_raise (fs : snapshot_store) (country : string) (e : exn) :
  all_country_body fs country = Raise e ->
  ordinary e \/ e = mkExn CountryNotFound not_found_msg.
Proof.
  unfold all_country_body, bind.
  destruct (read_json fs "data.json") as [data|] eqn:E0;
    [|intros H; inversion H; subst; left; eauto using read_json_ordinary].
  destruct (iter data) as [l|] eqn:E1;
    [|intros H; inversion H; subst; left; eauto using iter_ordinary].
  apply all_country_loop_raise.
Qed.

Lemma history_country_body_sound (fs : snapshot_store)
  (data_type country : string) (r : response) :
  history_country_body fs data_type country = Ok r ->
  exists d k e,
    fs (history_file data_type) = Loaded (JDict d) /\ In k (dict_keys d)
    /\ keyed_probe country (JDict d) k = Ok (e, true) /\ r = jsonify e.
Proof.
  unfold history_country_body, bind.
  destruct (read_json fs _) as [data|] eqn:E0; [|discriminate].
  destruct (keys data) as [ks|] eqn:E1; [|discriminate].
  destruct (keys_dict _ _ E1) as [d [-> ->]].
  intros H. destruct (history_country_loop_sound _ _ _ _ H) as [k [e [Hin [Hp Hr]]]].
  exists d, k, e. repeat split; try assumption. now apply read_json_ok.
Qed.

Lemma history_country_body_raise (fs : snapshot_store)
  (data_type country : string) (e : exn) :
  history_country_body fs data_type country = Raise e ->
  ordinary e \/ e = mkExn CountryNotFound not_found_msg.
Proof.
  unfold history_country_body, bind.
  destruct (read_json fs _) as [data|] eqn:E0;
    [|intros H; inversion H; subst; left; eauto using read_json_ordinary].
  destruct (keys data) as [ks|] eqn:E1;
    [|intros H; inversion H; subst; left; eauto using keys_ordinary].
  apply history_country_loop_raise.
Qed.

Lemma history_region_all_body_sound (fs : snapshot_store)
  (data_type country : string) (r : response) :
  history_region_all_body fs data_type country = Ok r ->
  exists d k e regions,
    fs (region_file data_type country) = Loaded (JDict d) /\ In k (dict_keys d)
    /\ keyed_probe country (JDict d) k = Ok (e, true)
    /\ getitem e "regions" = Ok regions /\ r = jsonify regions.
Proof.
  unfold history_region_all_body, bind.
  destruct (read_json fs _) as [data|] eqn:E0; [|discriminate].
  destruct (keys data) as [ks|] eqn:E1; [|discriminate].
  destruct (keys_dict _ _ E1) as [d [-> ->]].
  intros H.
  destruct (history_region_all_loop_sound _ _ _ _ H)
    as [k [e [rg [Hin [Hp [Hg Hr]]]]]].
  exists d, k, e, rg. repeat split; try assumption. now apply read_json_ok.
Qed.

Lemma history_region_all_body_raise (fs : snapshot_store)
  (data_type country : string) (e : exn) :
  history_region_all_body fs data_type country = Raise e ->
  ordinary e \/ e = mkExn CountryNotFound country_not_found_msg.
Proof.
  unfold history_region_all_body, bind.
  destruct (read_json fs _) as [data|] eqn:E0;
    [|intros H; inversion H; subst; left; eauto using read_json_ordinary].
  destruct (keys data) as [ks|] eqn:E1;
    [|intros H; inversion H; subst; left; eauto using keys_ordinary].
  apply history_region_all_loop_raise.
Qed.

Lemma history_region_body_sound (fs : snapshot_store)
  (data_type country region_name : string) (r : response) :
  history_region_body fs data_type country region_name = Ok r ->
  exists d k e regions rk v,
    fs (region_file data_type country) = Loaded (JDict d) /\ In k (dict_keys d)
    /\ keyed_probe country (JDict d) k = Ok (e, true)
    /\ getitem e "regions" = Ok regions
    /\ region_matches rk region_name = true
    /\ getitem regions rk = Ok v /\ r = jsonify v.
Proof.
  unfold history_region_body, bind.
  destruct (read_json fs _) as [data|] eqn:E0; [|discriminate].
  destruct (keys data) as [ks|] eqn:E1; [|discriminate].
  destruct (keys_dict _ _ E1) as [d [-> ->]].
  intros H.
  destruct (history_region_loop_sound _ _ _ _ _ H)
    as [k [e [rg [rk [v [Hin [Hp [Hg [Hm [Hv Hr]]]]]]]]]].
  exists d, k, e, rg, rk, v. repeat split; try assumption.
  now apply read_json_ok.
Qed.

(** X1: a 200 answer of [history_region] is always the value stored under a
    region key that equals the region query up to case (region names and
    query in ASCII), inside the [regions] of an entry of the selected
    snapshot that the matcher accepted for the country query; no other value
    is ever served. *)
Theorem history_region_answer_sound :
  forall (fs : snapshot_store) (data_type country region_name : string)
         (d : list (string * json)),
    fs (region_file data_type country) = Loaded (JDict d) ->
    regions_ascii d = true ->
    is_ascii region_name = true ->
    status (history_region fs data_type country region_name) = 200%Z ->
    exists k e regions rk v,
      In k (dict_keys d)
      /\ keyed_probe country (JDict d) k = Ok (e, true)
      /\ getitem e "regions" = Ok regions
      /\ region_matches rk region_name = true
      /\ getitem regions rk = Ok v
      /\ history_region fs data_type country region_name = jsonify v.
Proof.
  intros fs dt country rn d Hfs _ _ Hs. unfold history_region in *.
  destruct (except_404_ok _ _ Hs) as [r Hr]. rewrite Hr. cbn [except_404].
  destruct (history_region_body_sound _ _ _ _ _ Hr)
    as [d' [k [e [rg [rk [v [Hfs' H]]]]]]].
  rewrite Hfs in Hfs'. inversion Hfs'; subst d'.
  exists k, e, rg, rk, v. exact H.
Qed.

Lemma history_region_answer_sound_witness :
  exists k e regions rk v,
    In k (dict_keys [("US", us_entity)])
    /\ keyed_probe "usa" (JDict [("US", us_entity)]) k = Ok (e, true)
    /\ getitem e "regions" = Ok regions
    /\ region_matches rk "TEXAS" = true
    /\ getitem regions rk = Ok v
    /\ history_region sample_store "confirmed" "usa" "TEXAS" = jsonify v.
Proof.
  apply (history_region_answer_sound sample_store "confirmed" "usa" "TEXAS"
           [("US", us_entity)]); reflexivity.
Defined.

(** X2: a 200 answer of [all_country] is an element of the snapshot list that
    the matcher accepted; a 200 answer of [history_country] is the entity
    stored under a key of the snapshot that the matcher accepted; a 200
    answer of [history_region_all] is the [regions] value of such an
    entity. *)
Theorem country_answer_sound :
  forall (fs : snapshot_store) (data_type country : string),
    (status (all_country fs country) = 200%Z ->
     exists data l x,
       fs "data.json" = Loaded data /\ iter data = Ok l /\ In x l
       /\ flat_probe country x = Ok true
       /\ all_country fs country = jsonify x)
    /\ (status (history_country fs data_type country) = 200%Z ->
        exists d k e,
          fs (history_file data_type) = Loaded (JDict d) /\ In k (dict_keys d)
          /\ keyed_probe country (JDict d) k = Ok (e, true)
          /\ history_country fs data_type country = jsonify e)
    /\ (status (history_region_all fs data_type country) = 200%Z ->
        exists d k e regions,
          fs (region_file data_type country) = Loaded (JDict d)
          /\ In k (dict_keys d)
          /\ keyed_probe country (JDict d) k = Ok (e, true)
          /\ getitem e "regions" = Ok regions
          /\ history_region_all fs data_type country = jsonify regions).
Proof.
  intros fs dt country. split; [|split].
  - intros Hs. unfold all_country in *.
    destruct (except_404_ok _ _ Hs) as [r Hr]. rewrite Hr. cbn [except_404].
    exact (all_country_body_sound _ _ _ Hr).
  - intros Hs. unfold history_country in *.
    destruct (except_404_ok _ _ Hs) as [r Hr]. rewrite Hr. cbn [except_404].
    exact (history_country_body_sound _ _ _ _ Hr).
  - intros Hs. unfold history_region_all in *.
    destruct (except_404_ok _ _ Hs) as [r Hr]. rewrite Hr. cbn [except_404].
    exact (history_region_all_body_sound _ _ _ _ Hr).
Qed.

Lemma country_answer_sound_witness :
  (exists data l x,
      world_totals "data.json" = Loaded data /\ iter data = Ok l /\ In x l
      /\ flat_probe "ind" x = Ok true
      /\ all_country world_totals "ind" = jsonify x)
  /\ (exists d k e,
         sample_store (history_file "confirmed") = Loaded (JDict d)
         /\ In k (dict_keys d)
         /\ keyed_probe "us" (JDict d) k = Ok (e, true)
         /\ history_country sample_store "confirmed" "us" = jsonify e).
Proof.
  split.
  - apply (proj1 (country_answer_sound world_totals "confirmed" "ind")).
    reflexivity.
  - apply (proj1 (proj2 (country_answer_sound sample_store "confirmed" "us"))).
    reflexivity.
Defined.

Lemma except_404_exact (is_C : exn_class -> bool) (m : result response)
  (cls : exn_class) (msg : string) :
  is_C cls = true ->
  (forall r, m = Ok r -> status r = 200%Z) ->
  (forall e, m = Raise e -> is_C (exn_cls e) = false \/ e = mkExn cls msg) ->
  status (except_404 is_C m) = 404%Z ->
  except_404 is_C m = response_error (class_name cls ++ " : " ++ msg) 404.
Proof.
  intros Hc Hok Hraise. destruct m as [r|e]; cbn [except_404].
  - intros Hs. rewrite (Hok r eq_refl) in Hs. discriminate.
  - destruct (Hraise e eq_refl) as [Hf| ->].
    + rewrite Hf. cbn. discriminate.
    + cbn [exn_cls]. rewrite Hc. reflexivity.
Qed.

(** X3: every 404 answer of [all_country] and of [history_country] is the
    [CountryNotFound] response raised after their loop, every 404 answer of
    [history_region_all] is the [CountryNotFound] response with the message
    "This country cannot be found. Please try again."; [all_data], [history]
    and [history_region_world] never answer 404. *)
Theorem not_found_answers :
  forall (fs : snapshot_store) (data_type country : string),
    (status (all_country fs country) = 404%Z ->
     all_country fs country = country_not_found)
    /\ (status (history_country fs data_type country) = 404%Z ->
        history_country fs data_type country = country_not_found)
    /\ (status (history_region_all fs data_type country) = 404%Z ->
        history_region_all fs data_type country = country_not_found_all)
    /\ status (all_data fs) <> 404%Z
    /\ status (history fs data_type) <> 404%Z
    /\ status (history_region_world fs data_type) <> 404%Z.
Proof.
  intros fs dt country. split; [|split; [|split; [|split; [|split]]]].
  - unfold all_country.
    apply (except_404_exact is_CountryNotFound _ CountryNotFound not_found_msg);
      [reflexivity| |].
    + intros r Hr.
      destruct (all_country_body_sound _ _ _ Hr) as [? [? [? [_ [_ [_ [_ ->]]]]]]].
      reflexivity.
    + intros e He. destruct (all_country_body_raise _ _ _ He) as [[_ H]|H];
        [now left|now right].
  - unfold history_country.
    apply (except_404_exact is_CountryNotFound _ CountryNotFound not_found_msg);
      [reflexivity| |].
    + intros r Hr.
      destruct (history_country_body_sound _ _ _ _ Hr) as [? [? [? [_ [_ [_ ->]]]]]].
      reflexivity.
    + intros e He. destruct (history_country_body_raise _ _ _ _ He) as [[_ H]|H];
        [now left|now right].
  - unfold history_region_all.
    apply (except_404_exact is_CountryNotFound _ CountryNotFound
             country_not_found_msg); [reflexivity| |].
    + intros r Hr.
      destruct (history_region_all_body_sound _ _ _ _ Hr)
        as [? [? [? [? [_ [_ [_ [_ ->]]]]]]]].
      reflexivity.
    + intros e He.
      destruct (history_region_all_body_raise _ _ _ _ He) as [[_ H]|H];
        [now left|now right].
  - unfold all_data, bind. destruct (read_json fs _); cbn; discriminate.
  - unfold history, bind. destruct (read_json fs _); cbn; discriminate.
  - unfold history_region_world, history_region_world_body, bind.
    destruct (read_json fs _); [|cbn; discriminate].
    destruct (keys a); [|cbn; discriminate].
    destruct (world_loop a a0 []); cbn; discriminate.
Qed.

Lemma not_found_answers_witness :
  all_country world_totals "germany" = country_not_found
  /\ history_region_all sample_store "confirmed" "germany"
     = country_not_found_all.
Proof.
  split.
  - apply (proj1 (not_found_answers world_totals "confirmed" "germany")).
    reflexivity.
  - apply (proj1 (proj2 (proj2
             (not_found_answers sample_store "confirmed" "germany")))).
    reflexivity.
Defined.

(* ================================================================== *)
(** ** An accepted entity without [regions] *)

Lemma history_region_loop_skip (country region_name : string)
  (d pre : list (string * json)) (rest : list string) :
  stored_in d pre -> forallb (keyed_miss country) pre = true ->
  history_region_loop country region_name (JDict d) (dict_keys pre ++ rest) =
  history_region_loop country region_name (JDict d) rest.
Proof.
  induction pre as [|[k e] pre IH]; [reflexivity|].
  intros Hst. cbn [forallb]. rewrite andb_true_iff. intros [Hx Hpre].
  cbn [dict_keys map fst app].
  rewrite history_region_loop_cons.
  rewrite (keyed_probe_miss country d k e); [|apply Hst; now left|exact Hx].
  cbn [bind snd]. apply IH; [|exact Hpre].
  intros k' e' Hin. apply Hst. now right.
Qed.

Lemma history_region_all_loop_skip (country : string)
  (d pre : list (string * json)) (rest : list string) :
  stored_in d pre -> forallb (keyed_miss country) pre = true ->
  history_region_all_loop country (JDict d) (dict_keys pre ++ rest) =
  history_region_all_loop country (JDict d) rest.
Proof.
  induction pre as [|[k e] pre IH]; [reflexivity|].
  intros Hst. cbn [forallb]. rewrite andb_true_iff. intros [Hx Hpre].
  cbn [dict_keys map fst app].
  rewrite history_region_all_loop_cons.
  rewrite (keyed_probe_miss country d k e); [|apply Hst; now left|exact Hx].
  cbn [bind snd]. apply IH; [|exact Hpre].
  intros k' e' Hin. apply Hst. now right.
Qed.

(** X4: when the first entry the matcher accepts has no usable [regions]
    field (the subscript raises, a [KeyError] for an absent field),
    [history_region] and [history_region_all] both answer with the generic
    500 error of that exception; the scan does not go on to later entries,
    even if one of them is accepted and has the region. *)
Theorem regions_field_error :
  forall (fs : snapshot_store) (data_type country region_name : string)
         (pre : list (string * json)) (k : string) (e : json)
         (post : list (string * json)) (ex : exn),
    fs (region_file data_type country) = Loaded (JDict (pre ++ (k, e) :: post)) ->
    distinct (dict_keys (pre ++ (k, e) :: post)) = true ->
    forallb (keyed_miss country) pre = true ->
    keyed_hit country (k, e) = true ->
    getitem e "regions" = Raise ex ->
    history_region fs data_type country region_name
    = response_error (describe ex) 500
    /\ history_region_all fs data_type country
       = response_error (describe ex) 500.
Proof.
  intros fs dt country rn pre k e post ex Hfs Hd Hpre Hhit Hex.
  pose proof (stored_in_self _ Hd) as Hst.
  assert (Hget : dict_get (pre ++ (k, e) :: post) k = Some e)
    by (apply Hst; apply in_or_app; right; now left).
  destruct (getitem_ordinary _ _ _ Hex) as [Hr Hc].
  split.
  - unfold history_region, history_region_body, read_json. rewrite Hfs.
    cbn [bind keys]. rewrite dict_keys_app.
    rewrite (history_region_loop_skip country rn _ pre);
      [|now apply stored_in_app_l in Hst|exact Hpre].
    cbn [dict_keys map fst]. rewrite history_region_loop_cons.
    rewrite (keyed_probe_hit country _ k e Hget Hhit). cbn [bind snd fst].
    rewrite Hex. cbn [bind except_404]. now rewrite Hr.
  - unfold history_region_all, history_region_all_body, read_json. rewrite Hfs.
    cbn [bind keys]. rewrite dict_keys_app.
    rewrite (history_region_all_loop_skip country _ pre);
      [|now apply stored_in_app_l in Hst|exact Hpre].
    cbn [dict_keys map fst]. rewrite history_region_all_loop_cons.
    rewrite (keyed_probe_hit country _ k e Hget Hhit). cbn [bind snd fst].
    rewrite Hex. cbn [bind except_404]. now rewrite Hc.
Qed.

Lemma regions_field_error_witness :
  history_region regionless_store "confirmed" "au" "victoria"
  = response_error "KeyError : 'regions'" 500
  /\ history_region_all regionless_store "confirmed" "au"
     = response_error "KeyError : 'regions'" 500.
Proof.
  apply (regions_field_error regionless_store "confirmed" "au" "victoria"
           [] "Austria" (JDict [("iso2", JStr "AT"); ("iso3", JStr "AUT")])
           [("Australia",
             JDict [("iso2", JStr "AU"); ("iso3", JStr "AUS");
                    ("regions", JDict [("Victoria", JInt 3)])])]
           (mkExn KeyError "'regions'")); reflexivity.
Defined.

(* ================================================================== *)
(** ** File names built from the data type *)

Lemma append_assoc (a b c : string) : (a ++ b) ++ c = a ++ (b ++ c).
Proof. induction a as [|x a IH]; cbn; [reflexivity | now rewrite IH]. Qed.

(** X5: the data type is pasted into the file name as it is, so [history]
    called with a data type that ends in "_region" (resp. "_us_region")
    serves verbatim the regional snapshot that [history_region] and
    [history_region_all] read for a country outside (resp. inside) the US
    names. *)
Theorem history_reaches_regional_files :
  forall (fs : snapshot_store) (data_type country : string) (v : json),
    fs (region_file data_type country) = Loaded v ->
    history fs (data_type ++ (if is_us country then "_us_region" else "_region"))
    = jsonify v.
Proof.
  intros fs dt country v Hfs.
  assert (Hname : history_file
                    (dt ++ (if is_us country then "_us_region" else "_region"))
                  = region_file dt country).
  { unfold history_file, region_file.
    destruct (is_us country); cbn [append]; do 4 f_equal;
      rewrite append_assoc; reflexivity. }
  unfold history, read_json. rewrite Hname, Hfs. reflexivity.
Qed.

Lemma history_reaches_regional_files_witness :
  history sample_store "confirmed_us_region"
  = jsonify (JDict [("US", us_entity)])
  /\ history sample_store "confirmed_region"
     = jsonify (JDict [("FR", fr_entity)]).
Proof.
  split.
  - apply (history_reaches_regional_files sample_store "confirmed" "USA").
    reflexivity.
  - apply (history_reaches_regional_files sample_store "confirmed" "fr").
    reflexivity.
Defined.

(* ================================================================== *)
(** ** The scheme of the documentation URL *)

Lemma append_length (a b : string) :
  String.length (a ++ b) = String.length a + String.length b.
Proof. induction a as [|x a IH]; cbn; [reflexivity | now rewrite IH]. Qed.

(** X11: [SSLApiDoc.specs_url] asks [url_for] for the scheme "http" exactly
    when "5000" occurs somewhere in the base URL, wherever that is, and for
    "https" otherwise; a base URL of fewer than four characters always gets
    "https". *)
Theorem specs_url_scheme :
  forall (U : Type) (url_for : string -> bool -> string -> U)
         (endpoint : string -> string) (base_url : string),
    (occurs_in "5000" base_url ->
     specs_url url_for endpoint base_url = url_for (endpoint "specs") true "http")
    /\ (~ occurs_in "5000" base_url ->
        specs_url url_for endpoint base_url
        = url_for (endpoint "specs") true "https")
    /\ (String.length base_url < 4 ->
        specs_url url_for endpoint base_url
        = url_for (endpoint "specs") true "https").
Proof.
  intros U url_for endpoint base_url. unfold specs_url, specs_scheme.
  split; [|split].
  - intros H. apply substring_of_occurs in H. now rewrite H.
  - intros H. destruct (substring_of "5000" base_url) eqn:E; [|reflexivity].
    apply substring_of_occurs in E. contradiction.
  - intros Hlen. destruct (substring_of "5000" base_url) eqn:E; [|reflexivity].
    apply substring_of_occurs in E. destruct E as [pre [suf ->]].
    exfalso. rewrite !append_length in Hlen. cbn in Hlen. lia.
Qed.

Lemma specs_url_scheme_witness :
  specs_url (fun ep ext scheme => (ep, ext, scheme)) (fun n => "api." ++ n)
    "https://api15000.example.org/"
  = ("api.specs", true, "http")
  /\ specs_url (fun ep ext scheme => (ep, ext, scheme)) (fun n => "api." ++ n)
       "x" = ("api.specs", true, "https").
Proof.
  split.
  - apply (proj1 (specs_url_scheme _ (fun ep ext scheme => (ep, ext, scheme))
                    (fun n => "api." ++ n) "https://api15000.example.org/")).
    exists "https://api1", ".example.org/". reflexivity.
  - apply (proj2 (proj2 (specs_url_scheme _
                    (fun ep ext scheme => (ep, ext, scheme))
                    (fun n => "api." ++ n) "x"))).
    cbn. lia.
Defined.

(* ================================================================== *)
(** ** More on the world aggregate *)

(** X8: the first entity, in stored order, whose history cannot be read
    decides the answer of [history_region_world]: the generic 500 error of
    the exception that entity raises, whatever follows it.  An entity without
    a [history] field raises [KeyError] 'history'; in a history dict the
    first count that [int] rejects raises the exception of that [int]
    call.  The counts involved are plain, so that [int] is Python's. *)
Theorem aggregate_first_failure :
  forall (fs : snapshot_store) (data_type : string),
    (forall pre k e post ex,
        fs (history_file data_type) = Loaded (JDict (pre ++ (k, e) :: post)) ->
        distinct (dict_keys (pre ++ (k, e) :: post)) = true ->
        forallb (fun p => history_wf (snd p)) pre = true ->
        forallb (fun p => counts_plain (snd p)) pre = true ->
        counts_plain e = true ->
        entity_history_pairs e = Raise ex ->
        history_region_world fs data_type = response_error (describe ex) 500)
    /\ (forall fields,
        dict_get fields "history" = None ->
        entity_history_pairs (JDict fields)
        = Raise (mkExn KeyError "'history'"))
    /\ (forall fields hpre date v hpost ex,
        dict_get fields "history" = Some (JDict (hpre ++ (date, v) :: hpost)) ->
        distinct (dict_keys (hpre ++ (date, v) :: hpost)) = true ->
        forallb (fun p => is_ok (py_int (snd p))) hpre = true ->
        forallb (fun p => count_plain (snd p)) hpre = true ->
        count_plain v = true ->
        py_int v = Raise ex ->
        entity_history_pairs (JDict fields) = Raise ex).
Proof.
  intros fs dt. split; [|split].
  - intros pre k e post ex Hfs Hd Hpre _ _ Hex.
    exact (first_failure_answer fs dt pre k e post ex Hfs Hd Hpre Hex).
  - intros fields Hnone. unfold entity_history_pairs. cbn [getitem].
    now rewrite Hnone.
  - intros fields hpre date v hpost ex Hh Hd Hok _ _ Hv.
    exact (first_bad_count fields hpre date v hpost ex Hh Hd Hok Hv).
Qed.

Lemma aggregate_first_failure_witness :
  history_region_world historyless_store "recovered"
  = response_error "KeyError : 'history'" 500.
Proof.
  apply (proj1 (aggregate_first_failure historyless_store "recovered")
           [("US", us_entity)] "XX"
           (JDict [("iso2", JStr "XX"); ("iso3", JStr "XXX")])
           [("YY", JDict [("history", JDict [("2021-01-01", JStr "n/a")])])]
           (mkExn KeyError "'history'")); reflexivity.
Defined.

Lemma world_pairs_ext (data data' : json) (ds : list string) :
  (forall k, In k ds -> entity_pairs data k = entity_pairs data' k) ->
  world_pairs data ds = world_pairs data' ds.
Proof.
  induction ds as [|k ds IH]; intros H; [reflexivity|].
  cbn [world_pairs]. rewrite (H k (or_introl eq_refl)).
  now rewrite (IH (fun k' Hin => H k' (or_intror Hin))).
Qed.

Lemma dict_get_some_of_key {V : Type} (d : list (string * V)) (k : string) :
  In k (dict_keys d) -> exists v, dict_get d k = Some v.
Proof.
  intros Hin. destruct (dict_get d k) as [v|] eqn:E; [now exists v|].
  apply dict_get_None in E. contradiction.
Qed.

(** X9: [history_region_world] reads nothing of an entity but its [history]:
    two snapshots with the same keys in the same order whose entities have
    the same [history] under each key get the same answer, whatever else the
    entities hold or lack. *)
Theorem aggregate_reads_history_only :
  forall (fs fs' : snapshot_store) (data_type : string)
         (d d' : list (string * json)),
    fs (history_file data_type) = Loaded (JDict d) ->
    fs' (history_file data_type) = Loaded (JDict d') ->
    dict_keys d = dict_keys d' ->
    (forall k e e',
        dict_get d k = Some e -> dict_get d' k = Some e' ->
        getitem e "history" = getitem e' "history") ->
    history_region_world fs data_type = history_region_world fs' data_type.
Proof.
  intros fs fs' dt d d' Hfs Hfs' Hk Hh.
  unfold history_region_world, history_region_world_body, read_json.
  rewrite Hfs, Hfs'. cbn [bind keys]. rewrite !world_loop_pairs, <- Hk.
  rewrite (world_pairs_ext (JDict d) (JDict d') (dict_keys d)); [reflexivity|].
  intros k Hin.
  destruct (dict_get_some_of_key d k Hin) as [e He].
  rewrite Hk in Hin. destruct (dict_get_some_of_key d' k Hin) as [e' He'].
  rewrite (entity_pairs_stored _ _ _ He), (entity_pairs_stored _ _ _ He').
  unfold entity_history_pairs. now rewrite (Hh k e e' He He').
Qed.

Lemma aggregate_reads_history_only_witness :
  history_region_world sample_store "confirmed"
  = history_region_world
      (store_of
         [("csv_confirmed.json",
           JDict [("US", JDict [("history", JDict [("2021-01-01", JStr "10")])]);
                  ("FR", JDict [("history", JDict [("2021-01-01", JStr "5")]);
                                ("note", JNull)])])])
      "confirmed".
Proof.
  apply (aggregate_reads_history_only sample_store _ "confirmed"
           [("US", us_entity); ("FR", fr_entity)]
           [("US", JDict [("history", JDict [("2021-01-01", JStr "10")])]);
            ("FR", JDict [("history", JDict [("2021-01-01", JStr "5")]);
                          ("note", JNull)])]).
  - reflexivity.
  - reflexivity.
  - reflexivity.
  - intros k e e' He He'. cbn [dict_get] in He, He'.
    destruct (String.eqb "US" k).
    + inversion He; inversion He'; reflexivity.
    + destruct (String.eqb "FR" k); [|discriminate].
      inversion He; inversion He'; reflexivity.
Defined.

(* ================================================================== *)
(** ** One region out of all regions *)

Lemma resolve_region_first (country region_name : string)
  (d rs : list (string * json)) (rk : string) (v : json) :
  resolve_regions country d = Some (JDict rs) ->
  find (fun p => region_matches (fst p) region_name) rs = Some (rk, v) ->
  resolve_region country region_name d = Some v.
Proof.
  unfold resolve_regions. induction d as [|p d IH]; [discriminate|].
  cbn [find resolve_region]. destruct (keyed_hit country p).
  - unfold find_region.
    destruct (getitem (snd p) "regions") as [rg|]; [|discriminate].
    intros H; inversion H; subst rg. intros Hf. now rewrite Hf.
  - exact IH.
Qed.

(** X10: on a well-formed regional snapshot (region names and query in
    ASCII), when [history_region_all] answers with a regions mapping and that
    mapping has a key equal to the region query up to case, [history_region]
    answers with the value the mapping stores under the first such key. *)
Theorem region_of_all_regions :
  forall (fs : snapshot_store) (data_type country region_name : string)
         (d rs : list (string * json)) (rk : string) (v : json),
    fs (region_file data_type country) = Loaded (JDict d) ->
    distinct (dict_keys d) = true ->
    forallb regional_wf d = true ->
    regions_ascii d = true ->
    is_ascii region_name = true ->
    history_region_all fs data_type country = jsonify (JDict rs) ->
    find (fun p => region_matches (fst p) region_name) rs = Some (rk, v) ->
    history_region fs data_type country region_name = jsonify v.
Proof.
  intros fs dt country rn d rs rk v Hfs Hd Hwf _ _ Hall Hfind.
  rewrite (history_region_resolve fs dt country rn d Hfs Hd Hwf).
  assert (Hres : resolve_regions country d = Some (JDict rs)).
  { unfold history_region_all, history_region_all_body, read_json in Hall.
    rewrite Hfs in Hall. cbn [bind keys] in Hall.
    rewrite (history_region_all_loop_resolve _ d d (stored_in_self _ Hd) Hwf)
      in Hall.
    destruct (resolve_regions country d) as [v'|]; cbn in Hall.
    - inversion Hall. reflexivity.
    - discriminate. }
  now rewrite (resolve_region_first country rn d rs rk v Hres Hfind).
Qed.

Lemma region_of_all_regions_witness :
  history_region sample_store "confirmed" "us" "TEXAS"
  = jsonify (JDict [("history", JDict [("2021-01-01", JStr "6")])]).
Proof.
  apply (region_of_all_regions sample_store "confirmed" "us" "TEXAS"
           [("US", us_entity)]
           [("California", JDict [("history", JDict [("2021-01-01", JStr "4")])]);
            ("Texas", JDict [("history", JDict [("2021-01-01", JStr "6")])])]
           "Texas"); reflexivity.
Defined.

(* ================================================================== *)
(** ** The aggregate of a merged snapshot *)












(* ================================================================== *)
(** ** More on the scan of [history_region] *)

Lemma resolve_region_skip (country region_name : string)
  (pre rest : list (string * json)) :
  (forall p, In p pre -> keyed_hit country p = true ->
             has_region (snd p) region_name = false) ->
  resolve_region country region_name (pre ++ rest)
  = resolve_region country region_name rest.
Proof.
  induction pre as [|p pre IH]; intros H; [reflexivity|].
  cbn [app resolve_region].
  assert (IH' := IH (fun q Hq => H q (or_intror Hq))).
  destruct (keyed_hit country p) eqn:E; [|exact IH'].
  now rewrite (find_region_none _ _ (H p (or_introl eq_refl) E)).
Qed.

(** X12: [history_region] does not stop at the first entry the matcher
    accepts: on a well-formed regional snapshot (region names and query in
    ASCII) it passes every accepted entry that has no region equal to the
    query up to case, and answers with the region of the first accepted entry
    that has one. *)
Theorem history_region_passes_on :
  forall (fs : snapshot_store) (data_type country region_name : string)
         (pre : list (string * json)) (k : string) (e : json)
         (post : list (string * json)) (v : json),
    fs (region_file data_type country) = Loaded (JDict (pre ++ (k, e) :: post)) ->
    distinct (dict_keys (pre ++ (k, e) :: post)) = true ->
    forallb regional_wf (pre ++ (k, e) :: post) = true ->
    regions_ascii (pre ++ (k, e) :: post) = true ->
    is_ascii region_name = true ->
    (forall p, In p pre -> keyed_hit country p = true ->
               has_region (snd p) region_name = false) ->
    keyed_hit country (k, e) = true ->
    find_region e region_name = Some v ->
    history_region fs data_type country region_name = jsonify v.
Proof.
  intros fs dt country rn pre k e post v Hfs Hd Hwf _ _ Hpre Hhit Hfind.
  rewrite (history_region_resolve fs dt country rn _ Hfs Hd Hwf).
  rewrite (resolve_region_skip country rn pre _ Hpre).
  cbn [resolve_region snd]. now rewrite Hhit, Hfind.
Qed.

Lemma history_region_passes_on_witness :
  history_region austral_store "deaths" "au" "victoria" = jsonify (JInt 3).
Proof.
  apply (history_region_passes_on austral_store "deaths" "au" "victoria"
           [("Austria",
             JDict [("iso2", JStr "AT"); ("iso3", JStr "AUT");
                    ("regions", JDict [("Tyrol", JInt 1)])])]
           "Australia"
           (JDict [("iso2", JStr "AU"); ("iso3", JStr "AUS");
                   ("regions", JDict [("Victoria", JInt 3)])])
           []); try reflexivity.
  intros p [<-|[]] _. reflexivity.
Defined.

Lemma region_loop_case (regions : json) (region_name region_name' : string)
  (rs : list json) :
  lower region_name = lower region_name' ->
  region_loop regions region_name rs = region_loop regions region_name' rs.
Proof.
  intros H. induction rs as [|x rs IH]; [reflexivity|].
  cbn [region_loop]. destruct x; try reflexivity.
  unfold region_matches. rewrite H.
  destruct (String.eqb (lower s) (lower region_name')); [reflexivity|exact IH].
Qed.

Lemma history_region_loop_case (country region_name region_name' : string)
  (data : json) (ks : list string) :
  lower region_name = lower region_name' ->
  history_region_loop country region_name data ks
  = history_region_loop country region_name' data ks.
Proof.
  intros H. induction ks as [|k ks IH]; [reflexivity|].
  rewrite !history_region_loop_cons. unfold bind.
  destruct (keyed_probe country data k) as [[e m]|]; [|reflexivity].
  cbn [snd fst]. destruct m; [|exact IH].
  destruct (getitem e "regions") as [rg|]; [|reflexivity].
  destruct (iter rg) as [rs|]; [|reflexivity].
  rewrite (region_loop_case rg region_name region_name' rs H).
  destruct (region_loop rg region_name' rs) as [[r|]|]; [reflexivity|exact IH|reflexivity].
Qed.

(** X13: the answer of [history_region] does not depend on the letter case
    of the region query: two region queries with the same lower-case form
    get the same answer on every store. *)
Theorem history_region_case_insensitive :
  forall (fs : snapshot_store)
         (data_type country region_name region_name' : string),
    lower region_name = lower region_name' ->
    history_region fs data_type country region_name
    = history_region fs data_type country region_name'.
Proof.
  intros fs dt country rn rn' H.
  unfold history_region, history_region_body, bind.
  destruct (read_json fs _) as [data|]; [|reflexivity].
  destruct (keys data) as [ks|]; [|reflexivity].
  now rewrite (history_region_loop_case country rn rn' data ks H).
Qed.

Lemma history_region_case_insensitive_witness :
  history_region sample_store "confirmed" "usa" "CALIFORNIA"
  = history_region sample_store "confirmed" "usa" "california".
Proof.
  apply (history_region_case_insensitive sample_store "confirmed" "usa"
           "CALIFORNIA" "california").
  reflexivity.
Defined.
